(** * Azure Monitor exporter: factory and trace exporter

    A shallow embedding of [factory.go] and [traceexporter.go] of the
    OpenTelemetry collector's Azure Monitor exporter.

    The exporter talks to three collaborators: the zap logger, the
    Application Insights client library (telemetry client, transport
    channel, diagnostics listener) and the collector's pdata batches.
    Calls on collaborators are recorded, in program order, in the [trace]
    of a [World]; the Go code becomes state-passing code over that world. *)

From Stdlib Require Import List String ZArith Lia Bool.
Import ListNotations.

Open Scope string_scope.
Open Scope list_scope.
Open Scope Z_scope.

(** ** Go basics *)

(** [time.Duration]: a count of nanoseconds. *)
Definition Duration := Z.
Definition Second : Duration := 1000000000.

(** Go's [error] values met in the two files: [errors.New msg] and the
    wrapper built by [consumererror.Permanent]. [None : option error] is
    Go's [nil] error. *)
Inductive error : Type :=
| errorsNew (msg : string)
| Permanent (e : error).

(** ** package zap *)
Module zap.

Inductive Level : Type :=
| DebugLevel | InfoLevel | WarnLevel | ErrorLevel
| DPanicLevel | PanicLevel | FatalLevel.

Definition rank (l : Level) : Z :=
  match l with
  | DebugLevel => -1 | InfoLevel => 0 | WarnLevel => 1 | ErrorLevel => 2
  | DPanicLevel => 3 | PanicLevel => 4 | FatalLevel => 5
  end.

(** A logger is known here by its name, by the lowest level its core has
    enabled, and by what its core lets through among the enabled entries
    (a sampling core may turn some down). *)
Record Logger : Type := {
  name : string;
  level : Level;
  admits : Level -> string -> bool
}.

Definition Enabled (lg : Logger) (lvl : Level) : bool :=
  rank (level lg) <=? rank lvl.

(** Structured fields passed to a log call.  [Stringer] stands for
    [zap.String key (d.String())] of a duration [d]. *)
Inductive Field : Type :=
| Int (key : string) (v : Z)
| Error (e : option error)
| Stringer (key : string) (d : Duration).

Record CheckedEntry : Type := { entryLevel : Level; entryMessage : string }.

(** [logger.Check lvl msg] for a level below DPanic, which is all the
    exporter asks about: nil when [lvl] is not enabled, otherwise the
    entry if the core takes it. *)
Definition Check (lg : Logger) (lvl : Level) (msg : string)
  : option CheckedEntry :=
  if Enabled lg lvl
  then if admits lg lvl msg
       then Some {| entryLevel := lvl; entryMessage := msg |}
       else None
  else None.

End zap.

(** ** package contracts *)
Module contracts.

(** The wire envelope.  [Data] is an [interface{}] in Go; the exporter
    never looks into it, so its type is left open. *)
Record Envelope (D : Type) : Type := {
  Name : string;
  Time : string;
  IKey : string;
  Tags : list (string * string);
  Data : D
}.
Arguments Name {D} _.
Arguments Time {D} _.
Arguments IKey {D} _.
Arguments Tags {D} _.
Arguments Data {D} _.

(** The assignment [envelope.IKey = k]. *)
Definition setIKey {D} (e : Envelope D) (k : string) : Envelope D :=
  {| Name := Name e; Time := Time e; IKey := k;
     Tags := Tags e; Data := Data e |}.

End contracts.

(** ** package appinsights *)
Module appinsights.

Record TelemetryConfiguration : Type := {
  InstrumentationKey : string;
  EndpointUrl : string;
  MaxBatchSize : Z;
  MaxBatchInterval : Duration
}.

Definition NewTelemetryConfiguration (ikey : string)
  : TelemetryConfiguration :=
  {| InstrumentationKey := ikey;
     EndpointUrl := "https://dc.services.visualstudio.com/v2/track";
     MaxBatchSize := 1024;
     MaxBatchInterval := 10 * Second |}.

(** A transport channel is a reference to an object owned by the
    library; references are numbered in allocation order. *)
Definition TelemetryChannel := nat.

Record TelemetryClient : Type := {
  clientConfig : TelemetryConfiguration;
  Channel : TelemetryChannel
}.

(** The closure handed to [NewDiagnosticsMessageListener], represented
    by the variable it captures: the exporter only ever builds the
    handler that forwards to [logger.Debug]. *)
Inductive DiagnosticsMessageHandler : Type :=
| ForwardToDebug (lg : zap.Logger).

(** The receive end of the channel returned by [Close]: [fires] tells
    whether a value is ever delivered on it. *)
Record Signal : Type := { signalOf : TelemetryChannel; fires : bool }.

End appinsights.

(** ** package pdata *)
Module pdata.
Section Traces.
Context {Resource InstrumentationLibrary Span : Type}.

Record InstrumentationLibrarySpans : Type := {
  ilsLibrary : InstrumentationLibrary;
  Spans : list Span
}.

Record ResourceSpans : Type := {
  rsResource : Resource;
  rsInstrumentationLibrarySpans : list InstrumentationLibrarySpans
}.

(** A batch: resource groups, each with its instrumentation-library
    groups, each with its spans, all in input order. *)
Definition Traces : Type := list ResourceSpans.

Fixpoint countLibraries (ilss : list InstrumentationLibrarySpans)
         (spanCount : Z) : Z :=
  match ilss with
  | [] => spanCount
  | ils :: rest =>
      countLibraries rest (spanCount + Z.of_nat (List.length (Spans ils)))
  end.

Fixpoint countResources (rss : list ResourceSpans) (spanCount : Z) : Z :=
  match rss with
  | [] => spanCount
  | rs :: rest =>
      countResources rest
        (countLibraries (rsInstrumentationLibrarySpans rs) spanCount)
  end.

(** [td.SpanCount()]: the two nested loops adding up [Spans().Len()].
    Counts are Go [int]s.  They are kept in [Z]: a batch held in memory
    has fewer spans than the largest [int], and the exporter only counts
    up to the span count and subtracts from it, so nothing wraps. *)
Definition SpanCount (td : Traces) : Z := countResources td 0.

End Traces.
Arguments InstrumentationLibrarySpans : clear implicits.
Arguments ResourceSpans : clear implicits.
Arguments Traces : clear implicits.
End pdata.

(** ** The world: collaborators as seen from the exporter *)

Section World.
Context {D : Type}.

Inductive Event : Type :=
| EvNewTelemetryClient (ch : appinsights.TelemetryChannel)
                       (c : appinsights.TelemetryConfiguration)
| EvNewDiagnosticsMessageListener (h : appinsights.DiagnosticsMessageHandler)
| EvLog (lg : zap.Logger) (lvl : zap.Level) (msg : string)
        (fields : list zap.Field)
| EvSend (ch : appinsights.TelemetryChannel) (e : contracts.Envelope D)
| EvClose (ch : appinsights.TelemetryChannel) (timeout : Duration)
| EvReceive (ch : appinsights.TelemetryChannel).

(** [trace]: the calls made so far, oldest first.  [nextChannel]: the
    next free channel reference.  [drains ch t]: the transport's side of
    [Close]: whether the signal of closing [ch] with time-out [t] is ever
    delivered. *)
Record World : Type := {
  trace : list Event;
  nextChannel : nat;
  drains : appinsights.TelemetryChannel -> Duration -> bool
}.

Definition St (A : Type) : Type := World -> A * World.

Definition ret {A} (a : A) : St A := fun w => (a, w).

Definition bind {A B} (m : St A) (k : A -> St B) : St B :=
  fun w => let (a, w') := m w in k a w'.

Definition emit (e : Event) : St unit :=
  fun w => (tt, {| trace := trace w ++ [e];
                   nextChannel := nextChannel w;
                   drains := drains w |}).

(** The events a computation adds to the trace of [w]. *)
Definition emitted {A} (m : St A) (w : World) : list Event :=
  skipn (List.length (trace w)) (trace (snd (m w))).

End World.
Arguments Event : clear implicits.
Arguments World : clear implicits.
Arguments St : clear implicits.

Declare Scope st_scope.
Delimit Scope st_scope with st.
Notation "x <- m ;; k" := (bind m (fun x => k))
  (at level 61, m at next level, right associativity) : st_scope.
Notation "m ;; k" := (bind m (fun _ => k))
  (at level 61, right associativity) : st_scope.
Open Scope st_scope.

(** ** Calls on the collaborators *)

Section Calls.
Context {D : Type}.

(** [logger.Debug msg fields] and [logger.Info msg fields]. *)
Definition Debug (lg : zap.Logger) (msg : string) (fields : list zap.Field)
  : St D unit :=
  emit (EvLog lg zap.DebugLevel msg fields).

Definition Info (lg : zap.Logger) (msg : string) (fields : list zap.Field)
  : St D unit :=
  emit (EvLog lg zap.InfoLevel msg fields).

(** [channel.Send envelope]: fire and forget. *)
Definition Send (ch : appinsights.TelemetryChannel)
  (envelope : contracts.Envelope D) : St D unit :=
  emit (EvSend ch envelope).

(** [channel.Close timeout]: returns at once with the completion signal. *)
Definition Close (ch : appinsights.TelemetryChannel) (timeout : Duration)
  : St D appinsights.Signal :=
  fun w =>
    ({| appinsights.signalOf := ch;
        appinsights.fires := drains w ch timeout |},
     snd (emit (EvClose ch timeout) w)).

(** [<-signal]: the receive blocks until a value is delivered; [None] is
    a receive that never returns. *)
Definition Receive (s : appinsights.Signal) (w : World D)
  : option (unit * World D) :=
  if appinsights.fires s
  then Some (emit (EvReceive (appinsights.signalOf s)) w)
  else None.

(** [appinsights.NewTelemetryClientFromConfig c]: allocates a client with
    a fresh in-memory channel. *)
Definition NewTelemetryClientFromConfig
  (c : appinsights.TelemetryConfiguration)
  : St D appinsights.TelemetryClient :=
  fun w =>
    let ch := nextChannel w in
    ({| appinsights.clientConfig := c; appinsights.Channel := ch |},
     {| trace := trace w ++ [EvNewTelemetryClient ch c];
        nextChannel := S ch;
        drains := drains w |}).

(** [appinsights.NewDiagnosticsMessageListener handler]. *)
Definition NewDiagnosticsMessageListener
  (h : appinsights.DiagnosticsMessageHandler) : St D unit :=
  emit (EvNewDiagnosticsMessageListener h).

(** What the library does with a diagnostics message [msg] when it calls
    an attached handler: the body of the closure in
    [getTransportChannel], [logger.Debug(msg); return nil]. *)
Definition callHandler (h : appinsights.DiagnosticsMessageHandler)
  (msg : string) : St D (option error) :=
  match h with
  | appinsights.ForwardToDebug logger =>
      Debug logger msg [] ;;
      ret None
  end.

End Calls.

(** ** config.go and the collector's configuration interface *)

Module configmodels.

Record ExporterSettings : Type := { TypeVal : string; NameVal : string }.

End configmodels.

(** The fields of [Config] that the two files read or set;
    [ExporterSettings] is the embedded struct. *)
Record Config : Type := {
  ExporterSettings : configmodels.ExporterSettings;
  Endpoint : string;
  InstrumentationKey : string;
  MaxBatchSize : Z;
  MaxBatchInterval : Duration;
  ShutdownTimeout : Duration
}.

(** A value of the interface [configmodels.Exporter], by dynamic type: a
    [Config] of this exporter, or the configuration of some other
    exporter. *)
Inductive configmodels_Exporter : Type :=
| OfConfig (c : Config)
| OfOtherType (s : configmodels.ExporterSettings).

(** The type assertion of [cfg] to a pointer to [Config], in its comma-ok
    form: [None] is [ok = false]. *)
Definition asConfig (cfg : configmodels_Exporter) : option Config :=
  match cfg with
  | OfConfig c => Some c
  | OfOtherType _ => None
  end.

(** [component.ExporterCreateParams]. *)
Record ExporterCreateParams : Type := { Logger : zap.Logger }.

(** ** traceexporter.go *)

Record traceExporter : Type := {
  config : Config;
  transportChannel : appinsights.TelemetryChannel;
  logger : zap.Logger;
  shutdownTimeout : Duration
}.

Record traceVisitor : Type := {
  processed : Z;
  err : option error;
  exporter : traceExporter
}.

Section TraceExporter.
Context {Resource InstrumentationLibrary Span D : Type}.

(** The envelope builder of the repository, [spanToEnvelope], lives in a
    file outside the two modelled here.  It is a pure function returning
    an envelope or an error. *)
Variable spanToEnvelope :
  Resource -> InstrumentationLibrary -> Span -> zap.Logger ->
  contracts.Envelope D + error.

(** Called for each tuple of Resource, InstrumentationLibrary, and Span.
    Returns the [ok] flag and the visitor after the call. *)
Definition visit (v : traceVisitor) (resource : Resource)
  (instrumentationLibrary : InstrumentationLibrary) (span : Span)
  : St D (bool * traceVisitor) :=
  match spanToEnvelope resource instrumentationLibrary span
          (logger (exporter v)) with
  | inr e =>
      (* record the error and short-circuit *)
      ret (false, {| processed := processed v;
                     err := Some (Permanent e);
                     exporter := exporter v |})
  | inl envelope =>
      (* apply the instrumentation key to the envelope *)
      let envelope :=
        contracts.setIKey envelope (InstrumentationKey (config (exporter v))) in
      (* fire and forget *)
      Send (transportChannel (exporter v)) envelope ;;
      ret (true, {| processed := processed v + 1;
                    err := err v;
                    exporter := exporter v |})
  end.

(** Modelled from the spec: the batch walker [Accept], whose file is not
    among the two modelled here.  It visits every (resource, library,
    span) triple in input order and calls [visit] on it; a [false] answer
    short-circuits the remainder of the batch.  The three functions are
    its three nested loops; the boolean tells the enclosing loop whether
    to go on. *)
Fixpoint acceptSpans (resource : Resource) (il : InstrumentationLibrary)
  (spans : list Span) (v : traceVisitor) : St D (bool * traceVisitor) :=
  match spans with
  | [] => ret (true, v)
  | span :: rest =>
      r <- visit v resource il span ;;
      if fst r then acceptSpans resource il rest (snd r) else ret r
  end.

Fixpoint acceptLibraries (resource : Resource)
  (ilss : list (pdata.InstrumentationLibrarySpans InstrumentationLibrary Span))
  (v : traceVisitor) : St D (bool * traceVisitor) :=
  match ilss with
  | [] => ret (true, v)
  | ils :: rest =>
      r <- acceptSpans resource (pdata.ilsLibrary ils) (pdata.Spans ils) v ;;
      if fst r then acceptLibraries resource rest (snd r) else ret r
  end.

Fixpoint acceptResources
  (rss : list (pdata.ResourceSpans Resource InstrumentationLibrary Span))
  (v : traceVisitor) : St D (bool * traceVisitor) :=
  match rss with
  | [] => ret (true, v)
  | rs :: rest =>
      r <- acceptLibraries (pdata.rsResource rs)
             (pdata.rsInstrumentationLibrarySpans rs) v ;;
      if fst r then acceptResources rest (snd r) else ret r
  end.

Definition Accept
  (traces : pdata.Traces Resource InstrumentationLibrary Span)
  (v : traceVisitor) : St D traceVisitor :=
  r <- acceptResources traces v ;;
  ret (snd r).

(** [onTraceData] returns the number of dropped spans and the error. *)
Definition onTraceData (exporter : traceExporter)
  (traceData : pdata.Traces Resource InstrumentationLibrary Span)
  : St D (Z * option error) :=
  let spanCount := pdata.SpanCount traceData in
  Debug (logger exporter) "Exporting spans" [zap.Int "Count" spanCount] ;;
  if spanCount =? 0 then ret (0, None)
  else
    visitor <- Accept traceData
                 {| processed := 0; err := None; exporter := exporter |} ;;
    Debug (logger exporter) "Exported spans"
      [zap.Int "Dropped" (spanCount - processed visitor);
       zap.Error (err visitor)] ;;
    ret (spanCount - processed visitor, err visitor).

End TraceExporter.

Section Shutdown.
Context {D : Type}.

(** [Shutdown]: [None] when the receive on the completion signal never
    returns, otherwise the returned error and the world after the call. *)
Definition Shutdown (exporter : traceExporter) (w : World D)
  : option (option error * World D) :=
  let (_, w1) :=
    Info (logger exporter) "Shutting down trace exporter"
      [zap.Stringer "Shutdown Timeout" (shutdownTimeout exporter)] w in
  let (signal, w2) :=
    Close (transportChannel exporter) (shutdownTimeout exporter) w1 in
  match Receive signal w2 with
  | None => None
  | Some (_, w3) => Some (None, w3)
  end.

(** Returns a new instance of the trace exporter.  The helper
    [exporterhelper.NewTraceExporter] wraps [onTraceData] and [Shutdown]
    into the host's exporter; it fails only on a nil configuration,
    logger or push function, none of which can be nil here, so the
    component is represented by the [traceExporter] it wraps. *)
Definition newTraceExporter (config : Config)
  (transportChannel : appinsights.TelemetryChannel) (logger : zap.Logger)
  : option traceExporter * option error :=
  (Some {| config := config;
           transportChannel := transportChannel;
           logger := logger;
           shutdownTimeout := ShutdownTimeout config |},
   None).

End Shutdown.

(** ** factory.go *)

(** The value of "type" key in configuration. *)
Definition typeStr : string := "azuremonitor".
Definition defaultEndpoint : string :=
  "https://dc.services.visualstudio.com/v2/track".

Definition errUnexpectedConfigurationType : error :=
  errorsNew "failed to cast configuration to Azure Monitor Config".

(** [tChannel = None] is the nil interface value of a new factory. *)
Record factory : Type := {
  tChannel : option appinsights.TelemetryChannel
}.

(** [NewFactory]: the [&factory{}] whose [createTraceExporter] is
    registered with the host. *)
Definition NewFactory : factory := {| tChannel := None |}.

(** The [Config] literal of [createDefaultConfig].  [InstrumentationKey]
    is not set there and keeps Go's zero value, the empty string. *)
Definition defaultConfig : Config :=
  {| ExporterSettings :=
       {| configmodels.TypeVal := typeStr;
          configmodels.NameVal := typeStr |};
     Endpoint := defaultEndpoint;
     InstrumentationKey := "";
     MaxBatchSize := 1024;
     MaxBatchInterval := 10 * Second;
     ShutdownTimeout := 5 * Second |}.

Definition createDefaultConfig : configmodels_Exporter :=
  OfConfig defaultConfig.

Section Factory.
Context {D : Type}.

(** Configures the transport channel.  The factory is updated in place in
    Go; here the factory after the call is returned with the channel. *)
Definition getTransportChannel (f : factory) (exporterConfig : Config)
  (logger : zap.Logger) : St D (factory * appinsights.TelemetryChannel) :=
  match tChannel f with
  | None =>
      let telemetryConfiguration :=
        appinsights.NewTelemetryConfiguration
          (InstrumentationKey exporterConfig) in
      let telemetryConfiguration :=
        {| appinsights.InstrumentationKey :=
             appinsights.InstrumentationKey telemetryConfiguration;
           appinsights.EndpointUrl := Endpoint exporterConfig;
           appinsights.MaxBatchSize := MaxBatchSize exporterConfig;
           appinsights.MaxBatchInterval := MaxBatchInterval exporterConfig |} in
      telemetryClient <- NewTelemetryClientFromConfig telemetryConfiguration ;;
      let f := {| tChannel := Some (appinsights.Channel telemetryClient) |} in
      (* Don't even bother enabling the AppInsights diagnostics listener
         unless debug logging is enabled *)
      match zap.Check logger zap.DebugLevel "" with
      | Some _ =>
          NewDiagnosticsMessageListener (appinsights.ForwardToDebug logger)
      | None => ret tt
      end ;;
      ret (f, appinsights.Channel telemetryClient)
  | Some ch => ret (f, ch)
  end.

Definition createTraceExporter (f : factory) (params : ExporterCreateParams)
  (cfg : configmodels_Exporter)
  : St D (factory * (option traceExporter * option error)) :=
  match asConfig cfg with
  | None => ret (f, (None, Some errUnexpectedConfigurationType))
  | Some exporterConfig =>
      r <- getTransportChannel f exporterConfig (Logger params) ;;
      ret (fst r, newTraceExporter exporterConfig (snd r) (Logger params))
  end.

(** The host creating exporters one after the other on one factory: the
    factory after the calls and the result of each call, in call order. *)
Fixpoint createTraceExporters (f : factory)
  (calls : list (ExporterCreateParams * configmodels_Exporter))
  : St D (factory * list (option traceExporter * option error)) :=
  match calls with
  | [] => ret (f, [])
  | (params, cfg) :: rest =>
      r <- createTraceExporter f params cfg ;;
      rs <- createTraceExporters (fst r) rest ;;
      ret (fst rs, snd r :: snd rs)
  end.

(** Successive calls of [getTransportChannel] on one factory. *)
Fixpoint getTransportChannels (f : factory)
  (calls : list (Config * zap.Logger))
  : St D (factory * list appinsights.TelemetryChannel) :=
  match calls with
  | [] => ret (f, [])
  | (exporterConfig, logger) :: rest =>
      r <- getTransportChannel f exporterConfig logger ;;
      rs <- getTransportChannels (fst r) rest ;;
      ret (fst rs, snd r :: snd rs)
  end.

End Factory.

(** ** Reading a trace *)

Section Observations.
Context {D : Type}.

(** The [Send] calls of a trace, in order: channel and envelope. *)
Fixpoint sendCalls (evs : list (Event D))
  : list (appinsights.TelemetryChannel * contracts.Envelope D) :=
  match evs with
  | [] => []
  | EvSend ch e :: rest => (ch, e) :: sendCalls rest
  | _ :: rest => sendCalls rest
  end.

(** The channels constructed in a trace, with their configuration. *)
Fixpoint constructions (evs : list (Event D))
  : list (appinsights.TelemetryChannel * appinsights.TelemetryConfiguration) :=
  match evs with
  | [] => []
  | EvNewTelemetryClient ch c :: rest => (ch, c) :: constructions rest
  | _ :: rest => constructions rest
  end.

(** The diagnostics handlers attached in a trace. *)
Fixpoint listeners (evs : list (Event D))
  : list appinsights.DiagnosticsMessageHandler :=
  match evs with
  | [] => []
  | EvNewDiagnosticsMessageListener h :: rest => h :: listeners rest
  | _ :: rest => listeners rest
  end.

(** The world [w] after the calls [evs]. *)
Definition extend (w : World D) (evs : list (Event D)) : World D :=
  {| trace := trace w ++ evs;
     nextChannel := nextChannel w;
     drains := drains w |}.

(** The telemetry configuration of a channel built from [c]. *)
Definition channelSettings (c : Config) : appinsights.TelemetryConfiguration :=
  {| appinsights.InstrumentationKey := InstrumentationKey c;
     appinsights.EndpointUrl := Endpoint c;
     appinsights.MaxBatchSize := MaxBatchSize c;
     appinsights.MaxBatchInterval := MaxBatchInterval c |}.

(** The handlers attached when a channel is built with logger [lg]. *)
Definition attachedWith (lg : zap.Logger)
  : list appinsights.DiagnosticsMessageHandler :=
  match zap.Check lg zap.DebugLevel "" with
  | Some _ => [appinsights.ForwardToDebug lg]
  | None => []
  end.

(** The calls that build channel [ch] from [c] with logger [lg]. *)
Definition constructionCalls (ch : appinsights.TelemetryChannel) (c : Config)
  (lg : zap.Logger) : list (Event D) :=
  EvNewTelemetryClient ch (channelSettings c) ::
  map EvNewDiagnosticsMessageListener (attachedWith lg).

(** The world after a channel has been built in [w]. *)
Definition afterConstruction (w : World D) (c : Config) (lg : zap.Logger)
  : World D :=
  {| trace := trace w ++ constructionCalls (nextChannel w) c lg;
     nextChannel := S (nextChannel w);
     drains := drains w |}.

(** The first call, if any, whose configuration is a [Config]. *)
Fixpoint firstConfig
  (calls : list (ExporterCreateParams * configmodels_Exporter))
  : option (zap.Logger * Config) :=
  match calls with
  | [] => None
  | (params, cfg) :: rest =>
      match asConfig cfg with
      | Some c => Some (Logger params, c)
      | None => firstConfig rest
      end
  end.

(** What [createTraceExporter] returns for a call when the factory's
    channel is, or becomes, [ch]. *)
Definition createdWith (ch : appinsights.TelemetryChannel)
  (call : ExporterCreateParams * configmodels_Exporter)
  : option traceExporter * option error :=
  match asConfig (snd call) with
  | Some c => newTraceExporter c ch (Logger (fst call))
  | None => (None, Some errUnexpectedConfigurationType)
  end.

(** The exporters among the results of a series of calls. *)
Fixpoint exportersOf (results : list (option traceExporter * option error))
  : list traceExporter :=
  match results with
  | [] => []
  | (Some exp, _) :: rest => exp :: exportersOf rest
  | (None, _) :: rest => exportersOf rest
  end.

End Observations.

(** ** The walk, flattened *)

Section Flattened.
Context {Resource InstrumentationLibrary Span D : Type}.
Variable spanToEnvelope :
  Resource -> InstrumentationLibrary -> Span -> zap.Logger ->
  contracts.Envelope D + error.

Definition Triple : Type := (Resource * InstrumentationLibrary * Span)%type.

Definition triplesOfLibrary (resource : Resource)
  (ils : pdata.InstrumentationLibrarySpans InstrumentationLibrary Span)
  : list Triple :=
  map (fun span => (resource, pdata.ilsLibrary ils, span)) (pdata.Spans ils).

Definition triplesOfResource
  (rs : pdata.ResourceSpans Resource InstrumentationLibrary Span)
  : list Triple :=
  flat_map (triplesOfLibrary (pdata.rsResource rs))
    (pdata.rsInstrumentationLibrarySpans rs).

(** The spans of a batch in traversal order, each with its resource and
    its instrumentation library. *)
Definition triples
  (td : pdata.Traces Resource InstrumentationLibrary Span) : list Triple :=
  flat_map triplesOfResource td.

(** The builder applied to a triple, as [visit] calls it. *)
Definition build (exp : traceExporter) (t : Triple)
  : contracts.Envelope D + error :=
  spanToEnvelope (fst (fst t)) (snd (fst t)) (snd t) (logger exp).

(** What [visit] hands to [Send] for a triple the builder accepts. *)
Definition stamped (exp : traceExporter) (t : Triple)
  : contracts.Envelope D + error :=
  match build exp t with
  | inl envelope =>
      inl (contracts.setIKey envelope (InstrumentationKey (config exp)))
  | inr e => inr e
  end.

(** The envelopes of the triples before the first one the builder
    rejects, and the error of that one. *)
Fixpoint enqueued (exp : traceExporter) (ts : list Triple)
  : list (contracts.Envelope D) :=
  match ts with
  | [] => []
  | t :: rest =>
      match stamped exp t with
      | inl envelope => envelope :: enqueued exp rest
      | inr _ => []
      end
  end.

Fixpoint firstError (exp : traceExporter) (ts : list Triple) : option error :=
  match ts with
  | [] => None
  | t :: rest =>
      match stamped exp t with
      | inl _ => firstError exp rest
      | inr e => Some e
      end
  end.

(** One loop over the triples, doing what the three nested loops do. *)
Fixpoint walk (ts : list Triple) (v : traceVisitor)
  : St D (bool * traceVisitor) :=
  match ts with
  | [] => ret (true, v)
  | t :: rest =>
      r <- visit spanToEnvelope v (fst (fst t)) (snd (fst t)) (snd t) ;;
      if fst r then walk rest (snd r) else ret r
  end.

(** The visitor after a walk over [ts] that started from [v]. *)
Definition visitorAfter (ts : list Triple) (v : traceVisitor) : traceVisitor :=
  {| processed := processed v + Z.of_nat (List.length (enqueued (exporter v) ts));
     err := match firstError (exporter v) ts with
            | Some e => Some (Permanent e)
            | None => err v
            end;
     exporter := exporter v |}.

(** The result of [onTraceData] on a batch, and the calls it makes, read
    off the flattened batch. *)
Definition exportResult (exp : traceExporter)
  (td : pdata.Traces Resource InstrumentationLibrary Span)
  : Z * option error :=
  if pdata.SpanCount td =? 0 then (0, None)
  else
    (pdata.SpanCount td -
       Z.of_nat (List.length (enqueued exp (triples td))),
     option_map Permanent (firstError exp (triples td))).

Definition exportCalls (exp : traceExporter)
  (td : pdata.Traces Resource InstrumentationLibrary Span)
  : list (Event D) :=
  EvLog (logger exp) zap.DebugLevel "Exporting spans"
    [zap.Int "Count" (pdata.SpanCount td)] ::
  if pdata.SpanCount td =? 0 then []
  else
    map (EvSend (transportChannel exp)) (enqueued exp (triples td)) ++
    [EvLog (logger exp) zap.DebugLevel "Exported spans"
       [zap.Int "Dropped" (fst (exportResult exp td));
        zap.Error (snd (exportResult exp td))]].

(** The claim that every envelope sent by [onTraceData] carries a key
    that is not empty and is the configured one. *)
Definition keyStampedNonEmpty (exp : traceExporter)
  (td : pdata.Traces Resource InstrumentationLibrary Span) (w : World D)
  : Prop :=
  forall ch envelope,
    In (EvSend ch envelope) (emitted (onTraceData spanToEnvelope exp td) w) ->
    contracts.IKey envelope <> "" /\
    contracts.IKey envelope = InstrumentationKey (config exp).

End Flattened.

(** ** A small instance to run the exporter on *)

Record sampleSpan : Type := {
  spanName : string;
  startTime : Z;
  endTime : Z
}.

(** Modelled from the spec: a cut-down envelope builder, used only to run
    the exporter on concrete batches.  Of the builder's steps it keeps the
    first (the duration is end minus start, and a duration that is not
    positive is rejected) and the envelope name taken from the span; the
    resource is a service name and ends up in the cloud-role tag.  The
    builder leaves the instrumentation key empty. *)
Definition sampleSpanToEnvelope (resource : string) (library : string)
  (span : sampleSpan) (lg : zap.Logger) : contracts.Envelope Z + error :=
  let duration := endTime span - startTime span in
  if duration <=? 0 then inr (errorsNew "invalid duration")
  else inl {| contracts.Name := spanName span;
              contracts.Time := "";
              contracts.IKey := "";
              contracts.Tags := [("ai.cloud.role", resource)];
              contracts.Data := duration |}.

Definition sampleLogger : zap.Logger :=
  {| zap.name := "collector"; zap.level := zap.InfoLevel;
     zap.admits := fun _ _ => true |}.

Definition debugLogger : zap.Logger :=
  {| zap.name := "collector/debug"; zap.level := zap.DebugLevel;
     zap.admits := fun _ _ => true |}.

Definition sampleConfig : Config :=
  {| ExporterSettings :=
       {| configmodels.TypeVal := typeStr;
          configmodels.NameVal := typeStr |};
     Endpoint := defaultEndpoint;
     InstrumentationKey := "ikey-1234";
     MaxBatchSize := 1024;
     MaxBatchInterval := 10 * Second;
     ShutdownTimeout := 5 * Second |}.

Definition otherConfig : Config :=
  {| ExporterSettings :=
       {| configmodels.TypeVal := typeStr;
          configmodels.NameVal := "azuremonitor/2" |};
     Endpoint := "https://example.invalid/v2/track";
     InstrumentationKey := "ikey-5678";
     MaxBatchSize := 16;
     MaxBatchInterval := 1 * Second;
     ShutdownTimeout := 1 * Second |}.

Definition sampleExporter : traceExporter :=
  {| config := sampleConfig;
     transportChannel := 0%nat;
     logger := sampleLogger;
     shutdownTimeout := ShutdownTimeout sampleConfig |}.

(** The exporter that [createTraceExporter] makes from the default
    configuration on a new factory in [world0]. *)
Definition defaultExporter : traceExporter :=
  {| config := defaultConfig;
     transportChannel := 0%nat;
     logger := sampleLogger;
     shutdownTimeout := ShutdownTimeout defaultConfig |}.

Definition okSpan (n : string) : sampleSpan :=
  {| spanName := n; startTime := 0; endTime := 250 |}.

Definition badSpan (n : string) : sampleSpan :=
  {| spanName := n; startTime := 10; endTime := 5 |}.

(** Three spans in two resource groups; the second span ends before it
    starts. *)
Definition mixedBatch : pdata.Traces string string sampleSpan :=
  [ {| pdata.rsResource := "svc-a";
       pdata.rsInstrumentationLibrarySpans :=
         [ {| pdata.ilsLibrary := "lib"; pdata.Spans := [okSpan "GET /users"] |} ] |};
    {| pdata.rsResource := "svc-b";
       pdata.rsInstrumentationLibrarySpans :=
         [ {| pdata.ilsLibrary := "lib"; pdata.Spans := [] |};
           {| pdata.ilsLibrary := "lib2";
              pdata.Spans := [badSpan "SELECT 1"; okSpan "send"] |} ] |} ].

Definition goodBatch : pdata.Traces string string sampleSpan :=
  [ {| pdata.rsResource := "svc-a";
       pdata.rsInstrumentationLibrarySpans :=
         [ {| pdata.ilsLibrary := "lib";
              pdata.Spans := [okSpan "GET /users"; okSpan "GET /orders"] |} ] |} ].

(** A batch with groups but no span. *)
Definition emptyBatch : pdata.Traces string string sampleSpan :=
  [ {| pdata.rsResource := "svc-a";
       pdata.rsInstrumentationLibrarySpans :=
         [ {| pdata.ilsLibrary := "lib"; pdata.Spans := [] |} ] |} ].

Definition world0 : World Z :=
  {| trace := []; nextChannel := 0%nat; drains := fun _ _ => true |}.

(** A world whose transport never signals completion. *)
Definition stuckWorld : World Z :=
  {| trace := []; nextChannel := 0%nat; drains := fun _ _ => false |}.

(** ** Reading a trace, continued *)

Section MoreObservations.
Context {D : Type}.

(** The [Close] calls of a trace, in order: channel and time-out. *)
Fixpoint closeCalls (evs : list (Event D))
  : list (appinsights.TelemetryChannel * Duration) :=
  match evs with
  | [] => []
  | EvClose ch timeout :: rest => (ch, timeout) :: closeCalls rest
  | _ :: rest => closeCalls rest
  end.

(** The two kinds of call an export may make: a debug log on the
    exporter's logger, a [Send] on the exporter's channel. *)
Definition exportEvent (exp : traceExporter) (ev : Event D) : Prop :=
  match ev with
  | EvLog lg lvl _ _ => lg = logger exp /\ lvl = zap.DebugLevel
  | EvSend ch _ => ch = transportChannel exp
  | _ => False
  end.

(** The calls of one [Shutdown] that returns. *)
Definition shutdownCalls (exp : traceExporter) : list (Event D) :=
  [EvLog (logger exp) zap.InfoLevel "Shutting down trace exporter"
     [zap.Stringer "Shutdown Timeout" (shutdownTimeout exp)];
   EvClose (transportChannel exp) (shutdownTimeout exp);
   EvReceive (transportChannel exp)].

(** The host creating one exporter on each of two new factories. *)
Definition createOnTwoFactories (params1 : ExporterCreateParams) (c1 : Config)
  (params2 : ExporterCreateParams) (c2 : Config)
  : St D ((option traceExporter * option error) *
          (option traceExporter * option error)) :=
  r1 <- createTraceExporter NewFactory params1 (OfConfig c1) ;;
  r2 <- createTraceExporter NewFactory params2 (OfConfig c2) ;;
  ret (snd r1, snd r2).

End MoreObservations.

Section Lifecycle.
Context {Resource InstrumentationLibrary Span D : Type}.
Variable spanToEnvelope :
  Resource -> InstrumentationLibrary -> Span -> zap.Logger ->
  contracts.Envelope D + error.

(** The host exporting two batches in a row through one exporter. *)
Definition consumeTwice (exp : traceExporter)
  (td1 td2 : pdata.Traces Resource InstrumentationLibrary Span)
  : St D ((Z * option error) * (Z * option error)) :=
  r1 <- onTraceData spanToEnvelope exp td1 ;;
  r2 <- onTraceData spanToEnvelope exp td2 ;;
  ret (r1, r2).

(** The life of one exporter: created on a new factory from [c], one
    batch exported, then shut down.  [None]: the shutdown never returns. *)
Definition createConsumeShutdown (params : ExporterCreateParams) (c : Config)
  (td : pdata.Traces Resource InstrumentationLibrary Span) (w : World D)
  : option ((Z * option error) * option error * World D) :=
  let (created, w1) := createTraceExporter NewFactory params (OfConfig c) w in
  match fst (snd created) with
  | None => None
  | Some exp =>
      let (r, w2) := onTraceData spanToEnvelope exp td w1 in
      match Shutdown exp w2 with
      | None => None
      | Some (e, w3) => Some (r, e, w3)
      end
  end.

End Lifecycle.

(** ** More of the sample instance *)

(** A visitor at the start of a walk for the sample exporter. *)
Definition sampleVisitor : traceVisitor :=
  {| processed := 0; err := None; exporter := sampleExporter |}.

(** Two calls on one factory, with different configurations and loggers. *)
Definition twoCalls : list (ExporterCreateParams * configmodels_Exporter) :=
  [({| Logger := debugLogger |}, OfConfig sampleConfig);
   ({| Logger := sampleLogger |}, OfConfig otherConfig)].

(** The exporters those two calls produce in [world0]. *)
Definition firstExporter : traceExporter :=
  {| config := sampleConfig;
     transportChannel := 0%nat;
     logger := debugLogger;
     shutdownTimeout := ShutdownTimeout sampleConfig |}.

Definition secondExporter : traceExporter :=
  {| config := otherConfig;
     transportChannel := 0%nat;
     logger := sampleLogger;
     shutdownTimeout := ShutdownTimeout otherConfig |}.

(** * Properties *)

(** ** Worlds and traces *)

Section WorldFacts.
Context {D : Type}.
Implicit Types (w : World D) (evs : list (Event D)).

Lemma extend_nil w : extend w [] = w.
Proof. destruct w; unfold extend; simpl; now rewrite app_nil_r. Qed.

Lemma extend_extend w evs evs' :
  extend (extend w evs) evs' = extend w (evs ++ evs').
Proof. unfold extend; simpl; now rewrite app_assoc. Qed.

Lemma emit_extend (e : Event D) w : emit e w = (tt, extend w [e]).
Proof. reflexivity. Qed.

Lemma skipn_prefix (l evs : list (Event D)) :
  skipn (List.length l) (l ++ evs) = evs.
Proof. induction l; simpl; auto. Qed.

Lemma emitted_extend {A} (m : St D A) w evs :
  snd (m w) = extend w evs -> emitted m w = evs.
Proof.
  intros H; unfold emitted; rewrite H; simpl; apply skipn_prefix.
Qed.

Lemma emitted_unchanged {A} (m : St D A) w :
  snd (m w) = w -> emitted m w = [].
Proof.
  intros H. apply emitted_extend. now rewrite H, extend_nil.
Qed.

Lemma sendCalls_app evs evs' :
  sendCalls (evs ++ evs') = sendCalls evs ++ sendCalls evs'.
Proof.
  induction evs as [|e evs IH]; simpl; auto.
  destruct e; simpl; now rewrite ?IH.
Qed.

Lemma sendCalls_Send ch (envs : list (contracts.Envelope D)) :
  sendCalls (map (EvSend ch) envs) = map (pair ch) envs.
Proof. induction envs; simpl; congruence. Qed.

Lemma constructions_app evs evs' :
  constructions (evs ++ evs') = constructions evs ++ constructions evs'.
Proof.
  induction evs as [|e evs IH]; simpl; auto.
  destruct e; simpl; now rewrite ?IH.
Qed.

Lemma listeners_app evs evs' :
  listeners (evs ++ evs') = listeners evs ++ listeners evs'.
Proof.
  induction evs as [|e evs IH]; simpl; auto.
  destruct e; simpl; now rewrite ?IH.
Qed.

End WorldFacts.

(** ** The walk over a batch *)

Section WalkFacts.
Context {Resource InstrumentationLibrary Span D : Type}.
Variable spanToEnvelope :
  Resource -> InstrumentationLibrary -> Span -> zap.Logger ->
  contracts.Envelope D + error.

Abbreviation Batch := (pdata.Traces Resource InstrumentationLibrary Span).
Abbreviation triple := (@Triple Resource InstrumentationLibrary Span).
Implicit Types (ts : list triple) (v : traceVisitor) (w : World D)
  (exp : traceExporter) (td : Batch).

Lemma visit_run v (t : triple) w :
  visit spanToEnvelope v (fst (fst t)) (snd (fst t)) (snd t) w =
  match stamped spanToEnvelope (exporter v) t with
  | inl envelope =>
      ((true, {| processed := processed v + 1; err := err v;
                 exporter := exporter v |}),
       extend w [EvSend (transportChannel (exporter v)) envelope])
  | inr e =>
      ((false, {| processed := processed v; err := Some (Permanent e);
                  exporter := exporter v |}), w)
  end.
Proof.
  unfold visit, stamped, build.
  destruct (spanToEnvelope _ _ _ _); reflexivity.
Qed.

(** Whatever [visit] sends goes to the exporter's channel and carries
    the configured key; this does not depend on who calls [visit]. *)
Lemma visit_stamps v resource il span w ch envelope :
  In (EvSend ch envelope) (emitted (visit spanToEnvelope v resource il span) w) ->
  ch = transportChannel (exporter v) /\
  contracts.IKey envelope = InstrumentationKey (config (exporter v)).
Proof.
  pose proof (visit_run v (resource, il, span) w) as H. simpl in H.
  unfold stamped, build in H. simpl in H.
  destruct (spanToEnvelope resource il span (logger (exporter v))) as [e0|e0].
  - rewrite (emitted_extend _ w _ (f_equal snd H)).
    intros [Heq|[]]. inversion Heq; subst. auto.
  - rewrite (emitted_unchanged _ w (f_equal snd H)). intros [].
Qed.

Lemma visitorAfter_nil v : visitorAfter spanToEnvelope [] v = v.
Proof.
  destruct v; unfold visitorAfter; simpl; f_equal; lia.
Qed.

(** A walk sends the envelopes of the triples before the first rejected
    one, counts them, and keeps the error of the rejected one. *)
Lemma walk_run ts : forall v w,
  walk spanToEnvelope ts v w =
  ((match firstError spanToEnvelope (exporter v) ts with
    | Some _ => false | None => true end,
    visitorAfter spanToEnvelope ts v),
   extend w (map (EvSend (transportChannel (exporter v)))
               (enqueued spanToEnvelope (exporter v) ts))).
Proof.
  induction ts as [|t ts IH]; intros v w.
  - simpl walk. unfold ret. simpl. now rewrite visitorAfter_nil, extend_nil.
  - simpl walk. unfold bind. rewrite visit_run.
    unfold visitorAfter. simpl.
    destruct (stamped spanToEnvelope (exporter v) t) as [envelope|e] eqn:E.
    + simpl. rewrite IH. simpl. rewrite extend_extend. simpl.
      unfold visitorAfter. simpl. do 3 f_equal. lia.
    + simpl. unfold ret. rewrite extend_nil. do 3 f_equal. lia.
Qed.

Lemma walk_app ts ts' v w :
  walk spanToEnvelope (ts ++ ts') v w =
  let r := walk spanToEnvelope ts v w in
  if fst (fst r) then walk spanToEnvelope ts' (snd (fst r)) (snd r) else r.
Proof.
  revert v w; induction ts as [|t ts IH]; intros v w; simpl.
  - reflexivity.
  - unfold bind.
    destruct (visit spanToEnvelope v (fst (fst t)) (snd (fst t)) (snd t) w)
      as [[ok v'] w'].
    simpl. destruct ok; [apply IH | reflexivity].
Qed.

Lemma acceptSpans_walk resource
  (ils : pdata.InstrumentationLibrarySpans InstrumentationLibrary Span) v w :
  acceptSpans spanToEnvelope resource (pdata.ilsLibrary ils) (pdata.Spans ils)
    v w =
  walk spanToEnvelope (triplesOfLibrary resource ils) v w.
Proof.
  unfold triplesOfLibrary. generalize (pdata.ilsLibrary ils) as il.
  intros il. revert v w.
  induction (pdata.Spans ils) as [|s spans IH]; intros v w; simpl.
  - reflexivity.
  - unfold bind.
    destruct (visit spanToEnvelope v resource il s w) as [[ok v'] w'].
    simpl. destruct ok; [apply IH | reflexivity].
Qed.

Lemma acceptLibraries_walk resource
  (ilss : list (pdata.InstrumentationLibrarySpans InstrumentationLibrary Span))
  v w :
  acceptLibraries spanToEnvelope resource ilss v w =
  walk spanToEnvelope (flat_map (triplesOfLibrary resource) ilss) v w.
Proof.
  revert v w; induction ilss as [|ils ilss IH]; intros v w; simpl.
  - reflexivity.
  - unfold bind. rewrite acceptSpans_walk, walk_app.
    destruct (walk spanToEnvelope (triplesOfLibrary resource ils) v w)
      as [[ok v'] w'].
    simpl. destruct ok; [apply IH | reflexivity].
Qed.

Lemma acceptResources_walk td v w :
  acceptResources spanToEnvelope td v w =
  walk spanToEnvelope (triples td) v w.
Proof.
  revert v w; induction td as [|rs td IH]; intros v w; simpl.
  - reflexivity.
  - unfold bind. rewrite acceptLibraries_walk, walk_app.
    fold (triplesOfResource rs).
    destruct (walk spanToEnvelope (triplesOfResource rs) v w)
      as [[ok v'] w'].
    simpl. destruct ok; [apply IH | reflexivity].
Qed.

Lemma Accept_run td v w :
  Accept spanToEnvelope td v w =
  (visitorAfter spanToEnvelope (triples td) v,
   extend w (map (EvSend (transportChannel (exporter v)))
               (enqueued spanToEnvelope (exporter v) (triples td)))).
Proof.
  unfold Accept, bind. rewrite acceptResources_walk, walk_run. reflexivity.
Qed.

Lemma triplesOfLibrary_length (resource : Resource)
  (ils : pdata.InstrumentationLibrarySpans InstrumentationLibrary Span) :
  List.length (triplesOfLibrary resource ils) = List.length (pdata.Spans ils).
Proof. unfold triplesOfLibrary. apply length_map. Qed.

Lemma countLibraries_length
  (ilss : list (pdata.InstrumentationLibrarySpans InstrumentationLibrary Span))
  (resource : Resource) : forall n,
  pdata.countLibraries ilss n =
  n + Z.of_nat (List.length (flat_map (triplesOfLibrary resource) ilss)).
Proof.
  induction ilss as [|ils ilss IH]; intros n; simpl.
  - lia.
  - rewrite IH, length_app, triplesOfLibrary_length. lia.
Qed.

Lemma countResources_length td : forall n,
  pdata.countResources td n = n + Z.of_nat (List.length (triples td)).
Proof.
  induction td as [|rs td IH]; intros n; simpl.
  - lia.
  - rewrite IH, (countLibraries_length _ (pdata.rsResource rs)), length_app.
    fold (triplesOfResource rs). lia.
Qed.

(** [SpanCount] is the number of triples the walk would visit. *)
Lemma SpanCount_length td :
  pdata.SpanCount td = Z.of_nat (List.length (triples td)).
Proof. unfold pdata.SpanCount. now rewrite countResources_length. Qed.

End WalkFacts.

(** ** Envelopes enqueued by a walk *)

Section EnqueuedFacts.
Context {Resource InstrumentationLibrary Span D : Type}.
Variable spanToEnvelope :
  Resource -> InstrumentationLibrary -> Span -> zap.Logger ->
  contracts.Envelope D + error.

Abbreviation triple := (@Triple Resource InstrumentationLibrary Span).
Implicit Types (ts : list triple) (exp : traceExporter).

Lemma stamped_ok exp (t : triple) envelope :
  build spanToEnvelope exp t = inl envelope ->
  stamped spanToEnvelope exp t =
  inl (contracts.setIKey envelope (InstrumentationKey (config exp))).
Proof. unfold stamped; now intros ->. Qed.

Lemma stamped_error exp (t : triple) e :
  build spanToEnvelope exp t = inr e ->
  stamped spanToEnvelope exp t = inr e.
Proof. unfold stamped; now intros ->. Qed.

Lemma stamped_key exp (t : triple) envelope :
  stamped spanToEnvelope exp t = inl envelope ->
  contracts.IKey envelope = InstrumentationKey (config exp).
Proof.
  unfold stamped. destruct (build spanToEnvelope exp t); [|discriminate].
  intros H; injection H as <-. reflexivity.
Qed.

Lemma enqueued_length_le exp ts :
  (List.length (enqueued spanToEnvelope exp ts) <= List.length ts)%nat.
Proof.
  induction ts as [|t ts IH]; simpl; [lia|].
  destruct (stamped spanToEnvelope exp t); simpl; lia.
Qed.

Lemma enqueued_key exp ts envelope :
  In envelope (enqueued spanToEnvelope exp ts) ->
  contracts.IKey envelope = InstrumentationKey (config exp).
Proof.
  induction ts as [|t ts IH]; simpl; [tauto|].
  destruct (stamped spanToEnvelope exp t) as [e'|] eqn:E; simpl; [|tauto].
  intros [<-|H]; [eapply stamped_key; eassumption | auto].
Qed.

(** When the builder accepts every triple, all of them are enqueued. *)
Lemma enqueued_all exp ts :
  (forall t, In t ts -> exists envelope, build spanToEnvelope exp t = inl envelope) ->
  map inl (enqueued spanToEnvelope exp ts) = map (stamped spanToEnvelope exp) ts /\
  firstError spanToEnvelope exp ts = None.
Proof.
  induction ts as [|t ts IH]; intros Hok; simpl; [auto|].
  destruct (Hok t (or_introl eq_refl)) as [envelope Ht].
  rewrite (stamped_ok _ _ _ Ht). simpl.
  destruct IH as [IH1 IH2]; [intros; apply Hok; now right|].
  now rewrite IH1, IH2.
Qed.

(** When the first rejected triple is the [k]-th, the [k] before it are
    enqueued and its error is the first error. *)
Lemma enqueued_first_failure exp k : forall ts (t : triple) e,
  nth_error ts k = Some t ->
  build spanToEnvelope exp t = inr e ->
  (forall i t', (i < k)%nat -> nth_error ts i = Some t' ->
     exists envelope, build spanToEnvelope exp t' = inl envelope) ->
  map inl (enqueued spanToEnvelope exp ts) =
    map (stamped spanToEnvelope exp) (firstn k ts) /\
  firstError spanToEnvelope exp ts = Some e.
Proof.
  induction k as [|k IH]; intros [|t0 ts] t e Hk Ht Hbefore;
    simpl in Hk; try discriminate.
  - injection Hk as ->. simpl. now rewrite (stamped_error _ _ _ Ht).
  - destruct (Hbefore 0%nat t0) as [envelope H0]; [lia | reflexivity |].
    simpl. rewrite (stamped_ok _ _ _ H0). simpl.
    destruct (IH ts t e Hk Ht) as [IH1 IH2].
    + intros i t' Hi Hn. apply (Hbefore (S i) t'); [lia | exact Hn].
    + now rewrite IH1, IH2.
Qed.

Lemma map_inl_length {A B} (l : list A) (l' : list (A + B)) :
  map inl l = l' -> List.length l = List.length l'.
Proof. intros <-. now rewrite length_map. Qed.

End EnqueuedFacts.

(** ** [onTraceData] *)

Section OnTraceData.
Context {Resource InstrumentationLibrary Span D : Type}.
Variable spanToEnvelope :
  Resource -> InstrumentationLibrary -> Span -> zap.Logger ->
  contracts.Envelope D + error.

Abbreviation Batch := (pdata.Traces Resource InstrumentationLibrary Span).
Implicit Types (w : World D) (exp : traceExporter) (td : Batch).

(** The result and the calls of [onTraceData], in closed form. *)
Lemma onTraceData_run exp td w :
  onTraceData spanToEnvelope exp td w =
  (exportResult spanToEnvelope exp td,
   extend w (exportCalls spanToEnvelope exp td)).
Proof.
  unfold onTraceData, exportCalls, exportResult, bind, Debug.
  rewrite emit_extend.
  destruct (pdata.SpanCount td =? 0) eqn:E.
  - reflexivity.
  - rewrite Accept_run. simpl. unfold ret, extend. simpl.
    rewrite <- !app_assoc. simpl.
    destruct (firstError spanToEnvelope exp (triples td)); reflexivity.
Qed.

Lemma onTraceData_emitted exp td w :
  emitted (onTraceData spanToEnvelope exp td) w =
  exportCalls spanToEnvelope exp td.
Proof. apply emitted_extend. now rewrite onTraceData_run. Qed.

Lemma no_span_no_triple td :
  pdata.SpanCount td = 0 -> triples td = [].
Proof.
  rewrite SpanCount_length. destruct (triples td); simpl; [auto | lia].
Qed.

(** The [Send] calls of an export: the enqueued envelopes, on the
    exporter's channel. *)
Lemma onTraceData_sends exp td w :
  sendCalls (emitted (onTraceData spanToEnvelope exp td) w) =
  map (pair (transportChannel exp))
      (enqueued spanToEnvelope exp (triples td)).
Proof.
  rewrite onTraceData_emitted. unfold exportCalls.
  destruct (pdata.SpanCount td =? 0) eqn:E.
  - apply Z.eqb_eq in E. now rewrite (no_span_no_triple _ E).
  - simpl. rewrite sendCalls_app, sendCalls_Send. simpl.
    now rewrite app_nil_r.
Qed.

Lemma onTraceData_result exp td w :
  fst (onTraceData spanToEnvelope exp td w) =
  (pdata.SpanCount td -
     Z.of_nat (List.length (enqueued spanToEnvelope exp (triples td))),
   option_map Permanent (firstError spanToEnvelope exp (triples td))).
Proof.
  rewrite onTraceData_run. unfold exportResult. simpl.
  destruct (pdata.SpanCount td =? 0) eqn:E; [|reflexivity].
  apply Z.eqb_eq in E. rewrite (no_span_no_triple _ E), E. reflexivity.
Qed.

Lemma In_sendCalls (evs : list (Event D)) ch envelope :
  In (EvSend ch envelope) evs -> In (ch, envelope) (sendCalls evs).
Proof.
  induction evs as [|e evs IH]; simpl; [tauto|].
  intros [->|H]; [now left|].
  destruct e; simpl; auto.
Qed.

End OnTraceData.

(** ** The export path: dropped count, error and enqueued envelopes *)

Section ExportClaims.
Context {Resource InstrumentationLibrary Span D : Type}.
Variable spanToEnvelope :
  Resource -> InstrumentationLibrary -> Span -> zap.Logger ->
  contracts.Envelope D + error.

Abbreviation Batch := (pdata.Traces Resource InstrumentationLibrary Span).
Implicit Types (w : World D) (exp : traceExporter) (td : Batch).

(** C1.  When the first span the builder rejects is the [k]-th (counting
    from zero) in traversal order, with error [e], [onTraceData] returns
    [SpanCount - k] dropped spans and the error [Permanent e]; it makes
    exactly [k] [Send] calls, all on the exporter's channel: the stamped
    envelopes of the first [k] spans, in order.  No span from the [k]-th
    on is sent: the walk stops there. *)
Theorem first_failure_at_k exp td w k t e :
  nth_error (triples td) k = Some t ->
  build spanToEnvelope exp t = inr e ->
  (forall i t', (i < k)%nat -> nth_error (triples td) i = Some t' ->
     exists envelope, build spanToEnvelope exp t' = inl envelope) ->
  fst (onTraceData spanToEnvelope exp td w) =
    (pdata.SpanCount td - Z.of_nat k, Some (Permanent e)) /\
  List.length (sendCalls (emitted (onTraceData spanToEnvelope exp td) w)) = k /\
  map (fun c => (fst c, inl (snd c)))
      (sendCalls (emitted (onTraceData spanToEnvelope exp td) w)) =
  map (fun t' => (transportChannel exp, stamped spanToEnvelope exp t'))
      (firstn k (triples td)).
Proof.
  intros Hk Ht Hbefore.
  destruct (enqueued_first_failure spanToEnvelope exp k _ t e Hk Ht Hbefore)
    as [Henv Herr].
  assert (Hlen : List.length (enqueued spanToEnvelope exp (triples td)) = k).
  { rewrite (map_inl_length _ _ Henv), length_map, length_firstn.
    apply Nat.min_l. apply Nat.lt_le_incl, nth_error_Some. congruence. }
  rewrite onTraceData_result, onTraceData_sends, Herr, Hlen.
  repeat split.
  - now rewrite length_map.
  - rewrite map_map. simpl.
    rewrite <- (map_map inl (pair (transportChannel exp))), Henv.
    now rewrite map_map.
Qed.

(** C2.  When the builder accepts every span of the batch, [onTraceData]
    returns no dropped span and a nil error, and makes exactly
    [SpanCount] [Send] calls on the exporter's channel: the stamped
    envelope of every span, in traversal order. *)
Theorem all_spans_enqueued exp td w :
  (forall t, In t (triples td) ->
     exists envelope, build spanToEnvelope exp t = inl envelope) ->
  fst (onTraceData spanToEnvelope exp td w) = (0, None) /\
  Z.of_nat (List.length
    (sendCalls (emitted (onTraceData spanToEnvelope exp td) w))) =
    pdata.SpanCount td /\
  map (fun c => (fst c, inl (snd c)))
      (sendCalls (emitted (onTraceData spanToEnvelope exp td) w)) =
  map (fun t => (transportChannel exp, stamped spanToEnvelope exp t))
      (triples td).
Proof.
  intros Hok.
  destruct (enqueued_all spanToEnvelope exp _ Hok) as [Henv Herr].
  assert (Hlen : List.length (enqueued spanToEnvelope exp (triples td)) =
                 List.length (triples td)).
  { now rewrite (map_inl_length _ _ Henv), length_map. }
  rewrite onTraceData_result, onTraceData_sends, Herr, Hlen, length_map, Hlen.
  rewrite SpanCount_length. repeat split.
  - simpl. f_equal. lia.
  - rewrite map_map. simpl.
    rewrite <- (map_map inl (pair (transportChannel exp))), Henv.
    now rewrite map_map.
Qed.

(** C3, amended.  Every envelope that [onTraceData] hands to [Send]
    carries the instrumentation key of the exporter's configuration; it
    is therefore non-empty whenever the configured key is. *)
Theorem sent_key_is_configured exp td w ch envelope :
  In (EvSend ch envelope) (emitted (onTraceData spanToEnvelope exp td) w) ->
  contracts.IKey envelope = InstrumentationKey (config exp) /\
  (InstrumentationKey (config exp) <> "" -> contracts.IKey envelope <> "").
Proof.
  intros Hin. apply In_sendCalls in Hin.
  rewrite onTraceData_sends in Hin. apply in_map_iff in Hin.
  destruct Hin as [envelope' [Heq Hin]]. injection Heq as _ ->.
  apply enqueued_key in Hin. split; [exact Hin | congruence].
Qed.

(** C4.  The dropped count returned by [onTraceData] lies between zero
    and the span count of the batch. *)
Theorem dropped_within_span_count exp td w :
  0 <= fst (fst (onTraceData spanToEnvelope exp td w)) <= pdata.SpanCount td.
Proof.
  rewrite onTraceData_result. simpl. rewrite SpanCount_length.
  pose proof (enqueued_length_le spanToEnvelope exp (triples td)). lia.
Qed.

(** C5.  On a batch without spans [onTraceData] returns zero dropped
    spans and a nil error; its only call is the debug log of the span
    count, so nothing is sent. *)
Theorem empty_batch exp td w :
  pdata.SpanCount td = 0 ->
  onTraceData spanToEnvelope exp td w =
    ((0, None),
     extend w [EvLog (logger exp) zap.DebugLevel "Exporting spans"
                 [zap.Int "Count" 0]]) /\
  sendCalls (emitted (onTraceData spanToEnvelope exp td) w) = [].
Proof.
  intros H0. split.
  - rewrite onTraceData_run. unfold exportResult, exportCalls.
    now rewrite H0.
  - rewrite onTraceData_sends, (no_span_no_triple _ H0). reflexivity.
Qed.

End ExportClaims.

(** ** The factory *)

Section FactoryFacts.
Context {D : Type}.
Implicit Types (w : World D) (f : factory) (c : Config) (lg : zap.Logger).

Lemma Check_disabled lg msg :
  zap.Enabled lg zap.DebugLevel = false ->
  zap.Check lg zap.DebugLevel msg = None.
Proof. unfold zap.Check; now intros ->. Qed.

(** A call on a factory that already holds a channel. *)
Lemma getTransportChannel_cached ch c lg w :
  getTransportChannel {| tChannel := Some ch |} c lg w =
  (({| tChannel := Some ch |}, ch), w).
Proof. reflexivity. Qed.

(** A call on a factory that holds no channel yet. *)
Lemma getTransportChannel_fresh c lg w :
  getTransportChannel {| tChannel := None |} c lg w =
  (({| tChannel := Some (nextChannel w) |}, nextChannel w),
   afterConstruction w c lg).
Proof.
  unfold getTransportChannel, afterConstruction, constructionCalls,
    attachedWith, bind, NewTelemetryClientFromConfig; simpl.
  destruct (zap.Check lg zap.DebugLevel ""); simpl; unfold ret.
  - now rewrite <- app_assoc.
  - reflexivity.
Qed.

Lemma emitted_afterConstruction {A} (m : St D A) w c lg :
  snd (m w) = afterConstruction w c lg ->
  emitted m w = constructionCalls (nextChannel w) c lg.
Proof.
  intros H; unfold emitted; rewrite H; simpl; apply skipn_prefix.
Qed.

Lemma constructions_constructionCalls ch c lg :
  constructions (@constructionCalls D ch c lg) = [(ch, channelSettings c)].
Proof.
  unfold constructionCalls; simpl. f_equal.
  induction (attachedWith lg); simpl; auto.
Qed.

Lemma listeners_constructionCalls ch c lg :
  listeners (@constructionCalls D ch c lg) = attachedWith lg.
Proof.
  unfold constructionCalls; simpl.
  induction (attachedWith lg); simpl; congruence.
Qed.

Lemma createTraceExporter_cached ch params cfg w :
  createTraceExporter {| tChannel := Some ch |} params cfg w =
  (({| tChannel := Some ch |}, createdWith ch (params, cfg)), w).
Proof.
  unfold createTraceExporter, createdWith; simpl.
  destruct (asConfig cfg); reflexivity.
Qed.

Lemma createTraceExporter_fresh params cfg w :
  createTraceExporter {| tChannel := None |} params cfg w =
  match asConfig cfg with
  | Some c =>
      (({| tChannel := Some (nextChannel w) |},
        createdWith (nextChannel w) (params, cfg)),
       afterConstruction w c (Logger params))
  | None =>
      (({| tChannel := None |}, (None, Some errUnexpectedConfigurationType)),
       w)
  end.
Proof.
  unfold createTraceExporter, createdWith; simpl.
  destruct (asConfig cfg); [|reflexivity].
  unfold bind. now rewrite getTransportChannel_fresh.
Qed.

(** A series of calls on a factory that holds a channel builds nothing. *)
Lemma createTraceExporters_cached ch calls : forall w,
  createTraceExporters {| tChannel := Some ch |} calls w =
  (({| tChannel := Some ch |}, map (createdWith ch) calls), w).
Proof.
  induction calls as [|[params cfg] calls IH]; intros w; simpl.
  - reflexivity.
  - unfold bind. rewrite createTraceExporter_cached. simpl.
    now rewrite IH.
Qed.

(** A series of calls on a new factory: the first call with a [Config]
    builds the channel, all exporters are bound to it. *)
Lemma createTraceExporters_fresh calls : forall w,
  createTraceExporters {| tChannel := None |} calls w =
  match firstConfig calls with
  | Some (lg, c) =>
      (({| tChannel := Some (nextChannel w) |},
        map (createdWith (nextChannel w)) calls),
       afterConstruction w c lg)
  | None =>
      (({| tChannel := None |}, map (createdWith (nextChannel w)) calls), w)
  end.
Proof.
  induction calls as [|[params cfg] calls IH]; intros w; simpl.
  - reflexivity.
  - unfold bind. rewrite createTraceExporter_fresh.
    assert (Hnone : asConfig cfg = None ->
              createdWith (nextChannel w) (params, cfg) =
              (None, Some errUnexpectedConfigurationType)).
    { unfold createdWith; simpl; now intros ->. }
    destruct (asConfig cfg) as [c|]; cbn [fst snd].
    + now rewrite createTraceExporters_cached.
    + rewrite IH, (Hnone eq_refl).
      now destruct (firstConfig calls) as [[lg c]|].
Qed.

Lemma getTransportChannels_cached ch (calls : list (Config * zap.Logger)) :
  forall w,
  getTransportChannels {| tChannel := Some ch |} calls w =
  (({| tChannel := Some ch |}, map (fun _ => ch) calls), w).
Proof.
  induction calls as [|[c lg] calls IH]; intros w; simpl.
  - reflexivity.
  - unfold bind. rewrite getTransportChannel_cached. simpl. now rewrite IH.
Qed.

Lemma exportersOf_createdWith ch calls exp :
  In exp (exportersOf (map (createdWith ch) calls)) ->
  transportChannel exp = ch.
Proof.
  induction calls as [|[params cfg] calls IH]; simpl; [tauto|].
  unfold createdWith at 1; simpl.
  destruct (asConfig cfg); simpl; [|exact IH].
  intros [<-|H]; [reflexivity | auto].
Qed.

End FactoryFacts.

(** ** Creating exporters, shutting down *)

Section FactoryClaims.
Context {D : Type}.
Implicit Types (w : World D) (f : factory) (c : Config) (lg : zap.Logger).

(** C6.  [createTraceExporter] returns the configuration error, and no
    exporter, exactly when the configuration is not a [Config]; it then
    leaves the factory and the world as they were.  For a [Config] it
    obtains the channel from [getTransportChannel], which is the channel
    the factory holds afterwards, and returns, without error, the exporter
    made of that channel, the configuration and the logger. *)
Theorem createTraceExporter_spec f params cfg w :
  match asConfig cfg with
  | None =>
      createTraceExporter f params cfg w =
      ((f, (None, Some errUnexpectedConfigurationType)), w)
  | Some c =>
      createTraceExporter f params cfg w =
      ((fst (fst (getTransportChannel f c (Logger params) w)),
        (Some {| config := c;
                 transportChannel :=
                   snd (fst (getTransportChannel f c (Logger params) w));
                 logger := Logger params;
                 shutdownTimeout := ShutdownTimeout c |},
         None)),
       snd (getTransportChannel f c (Logger params) w)) /\
      tChannel (fst (fst (getTransportChannel f c (Logger params) w))) =
      Some (snd (fst (getTransportChannel f c (Logger params) w)))
  end /\
  (snd (snd (fst (createTraceExporter f params cfg w))) =
     Some errUnexpectedConfigurationType <-> asConfig cfg = None) /\
  (fst (snd (fst (createTraceExporter f params cfg w))) = None <->
     asConfig cfg = None).
Proof.
  unfold createTraceExporter.
  destruct (asConfig cfg) as [c|]; simpl.
  - unfold bind.
    destruct (getTransportChannel f c (Logger params) w) as [[f' ch] w'] eqn:E.
    simpl. repeat split; try discriminate.
    destruct f as [[ch0|]].
    + rewrite getTransportChannel_cached in E. now inversion E.
    + rewrite getTransportChannel_fresh in E. now inversion E.
  - repeat split; reflexivity.
Qed.

(** C7.  [Shutdown] of an exporter made by [newTraceExporter] logs at
    info level, calls [Close] on the exporter's channel with the
    configured shutdown time-out, and waits on the returned signal: when
    the signal is never delivered [Shutdown] does not return; when it is,
    [Shutdown] returns nil after the receive, whatever the world was. *)
Theorem Shutdown_spec c ch lg w :
  match fst (newTraceExporter c ch lg) with
  | Some exp =>
      Shutdown exp w =
      if drains w ch (ShutdownTimeout c)
      then Some (None,
                 extend w
                   [EvLog lg zap.InfoLevel "Shutting down trace exporter"
                      [zap.Stringer "Shutdown Timeout" (ShutdownTimeout c)];
                    EvClose ch (ShutdownTimeout c);
                    EvReceive ch])
      else None
  | None => False
  end.
Proof.
  simpl. unfold Shutdown, Info, Close, Receive, emit, extend; simpl.
  destruct (drains w ch (ShutdownTimeout c)); [|reflexivity].
  now rewrite <- !app_assoc.
Qed.

(** C8.  Over any series of [createTraceExporter] calls on a new factory
    at most one channel is built: by the first call that passes the
    configuration check, from that call's configuration.  The factory
    holds that channel afterwards and every exporter produced is bound to
    it.  A call on a factory that holds a channel builds nothing and
    binds the exporter to the channel held. *)
Theorem one_channel_per_factory calls ch params cfg w :
  constructions (emitted (createTraceExporters NewFactory calls) w) =
    match firstConfig calls with
    | Some (_, c) => [(nextChannel w, channelSettings c)]
    | None => []
    end /\
  (List.length
     (constructions (emitted (createTraceExporters NewFactory calls) w))
   <= 1)%nat /\
  tChannel (fst (fst (createTraceExporters NewFactory calls w))) =
    match firstConfig calls with
    | Some _ => Some (nextChannel w)
    | None => None
    end /\
  Forall
    (fun exp =>
       tChannel (fst (fst (createTraceExporters NewFactory calls w))) =
       Some (transportChannel exp))
    (exportersOf (snd (fst (createTraceExporters NewFactory calls w)))) /\
  createTraceExporter {| tChannel := Some ch |} params cfg w =
    (({| tChannel := Some ch |}, createdWith ch (params, cfg)), w).
Proof.
  assert (Hc : constructions
                 (emitted (createTraceExporters NewFactory calls) w) =
               match firstConfig calls with
               | Some (_, c) => [(nextChannel w, channelSettings c)]
               | None => []
               end).
  { unfold NewFactory.
    pose proof (createTraceExporters_fresh calls w) as H.
    destruct (firstConfig calls) as [[lg c]|].
    - rewrite (emitted_afterConstruction _ w c lg) by now rewrite H.
      apply constructions_constructionCalls.
    - rewrite emitted_unchanged by now rewrite H. reflexivity. }
  split; [exact Hc|]. split.
  { rewrite Hc. destruct (firstConfig calls) as [[lg c]|]; simpl; lia. }
  unfold NewFactory. rewrite createTraceExporters_fresh.
  split; [now destruct (firstConfig calls) as [[lg c]|]|].
  split; [|apply createTraceExporter_cached].
  apply Forall_forall. intros exp Hin.
  destruct (firstConfig calls) as [[lg c]|] eqn:E; simpl in *.
  - f_equal. symmetry. eapply exportersOf_createdWith; eassumption.
  - exfalso. clear -E Hin. revert Hin.
    induction calls as [|[p cfg'] calls IH]; simpl; [tauto|].
    simpl in E. unfold createdWith at 1; simpl.
    destruct (asConfig cfg'); [discriminate | simpl; auto].
Qed.

(** C9.  Unless the logger is enabled at debug level,
    [getTransportChannel] attaches no diagnostics listener.  A call on a
    factory that holds a channel attaches none; the call that builds the
    channel attaches at most one, so over any series of calls on a new
    factory at most one is attached, by the call that builds the channel.
    The handler attached forwards a message to [Debug] of the logger and
    returns nil. *)
Theorem diagnostics_listener_gate f c lg ch calls msg w :
  (zap.Enabled lg zap.DebugLevel = true \/
   listeners (emitted (getTransportChannel f c lg) w) = []) /\
  listeners (emitted (getTransportChannel {| tChannel := Some ch |} c lg) w)
    = [] /\
  listeners (emitted (getTransportChannel {| tChannel := None |} c lg) w)
    = attachedWith lg /\
  (attachedWith lg = [] \/
   attachedWith lg = [appinsights.ForwardToDebug lg]) /\
  listeners (emitted (createTraceExporters NewFactory calls) w) =
    match firstConfig calls with
    | Some (lg0, _) => attachedWith lg0
    | None => []
    end /\
  (List.length (listeners (emitted (createTraceExporters NewFactory calls) w))
   <= 1)%nat /\
  callHandler (appinsights.ForwardToDebug lg) msg w =
    (None, extend w [EvLog lg zap.DebugLevel msg []]).
Proof.
  assert (Hcached : forall ch',
            listeners
              (emitted (getTransportChannel {| tChannel := Some ch' |} c lg) w)
            = []).
  { intros ch'. now rewrite emitted_unchanged. }
  assert (Hfresh :
            listeners
              (emitted (getTransportChannel {| tChannel := None |} c lg) w)
            = attachedWith lg).
  { rewrite (emitted_afterConstruction _ w c lg)
      by now rewrite getTransportChannel_fresh.
    apply listeners_constructionCalls. }
  assert (Hone : forall lg', attachedWith lg' = [] \/
            attachedWith lg' = [appinsights.ForwardToDebug lg']).
  { intros lg'. unfold attachedWith.
    destruct (zap.Check lg' zap.DebugLevel ""); auto. }
  assert (Hseq : listeners (emitted (createTraceExporters NewFactory calls) w)
                 = match firstConfig calls with
                   | Some (lg0, _) => attachedWith lg0
                   | None => []
                   end).
  { unfold NewFactory.
    pose proof (createTraceExporters_fresh calls w) as H.
    destruct (firstConfig calls) as [[lg0 c0]|].
    - rewrite (emitted_afterConstruction _ w c0 lg0) by now rewrite H.
      apply listeners_constructionCalls.
    - rewrite emitted_unchanged by now rewrite H. reflexivity. }
  repeat split; auto.
  - destruct (zap.Enabled lg zap.DebugLevel) eqn:E; [now left | right].
    destruct f as [[ch'|]]; [apply Hcached|].
    rewrite Hfresh. unfold attachedWith. now rewrite Check_disabled.
  - rewrite Hseq. destruct (firstConfig calls) as [[lg0 c0]|]; simpl; [|lia].
    destruct (Hone lg0) as [-> | ->]; simpl; lia.
Qed.

(** C10.  On a factory that holds a channel [getTransportChannel]
    returns that channel and changes nothing, whatever configuration and
    logger it is given.  So after a first call with configuration [c0]
    and logger [lg0] on a new factory, any further calls leave exactly
    the calls of that first construction: one channel, built with the
    key, endpoint, batch size and batch interval of [c0], and the
    listener decided by [lg0]. *)
Theorem later_arguments_ignored ch c lg c0 lg0 params0 more rest w :
  getTransportChannel {| tChannel := Some ch |} c lg w =
    (({| tChannel := Some ch |}, ch), w) /\
  getTransportChannels NewFactory ((c0, lg0) :: more) w =
    (({| tChannel := Some (nextChannel w) |},
      map (fun _ => nextChannel w) ((c0, lg0) :: more)),
     afterConstruction w c0 lg0) /\
  createTraceExporters NewFactory ((params0, OfConfig c0) :: rest) w =
    (({| tChannel := Some (nextChannel w) |},
      map (createdWith (nextChannel w)) ((params0, OfConfig c0) :: rest)),
     afterConstruction w c0 (Logger params0)) /\
  constructions
    (emitted (createTraceExporters NewFactory ((params0, OfConfig c0) :: rest))
       w) =
    [(nextChannel w,
      {| appinsights.InstrumentationKey := InstrumentationKey c0;
         appinsights.EndpointUrl := Endpoint c0;
         appinsights.MaxBatchSize := MaxBatchSize c0;
         appinsights.MaxBatchInterval := MaxBatchInterval c0 |})] /\
  listeners
    (emitted (createTraceExporters NewFactory ((params0, OfConfig c0) :: rest))
       w) =
    attachedWith (Logger params0).
Proof.
  assert (Hseq :
    createTraceExporters NewFactory ((params0, OfConfig c0) :: rest) w =
    (({| tChannel := Some (nextChannel w) |},
      map (createdWith (nextChannel w)) ((params0, OfConfig c0) :: rest)),
     afterConstruction w c0 (Logger params0))).
  { unfold NewFactory. now rewrite createTraceExporters_fresh. }
  split; [apply getTransportChannel_cached|].
  split.
  { unfold NewFactory. simpl. unfold bind.
    rewrite getTransportChannel_fresh. simpl.
    now rewrite getTransportChannels_cached. }
  split; [exact Hseq|].
  rewrite (emitted_afterConstruction _ w c0 (Logger params0))
    by now rewrite Hseq.
  split; [apply constructions_constructionCalls
         | apply listeners_constructionCalls].
Qed.

End FactoryClaims.

(** * Runs on the sample instance *)

(** The mixed batch: the second of three spans is rejected. *)
Lemma first_failure_at_k_mixedBatch :
  (nth_error (triples mixedBatch) 1 = Some ("svc-b", "lib2", badSpan "SELECT 1") /\
   build sampleSpanToEnvelope sampleExporter
     ("svc-b", "lib2", badSpan "SELECT 1") =
   inr (errorsNew "invalid duration")) /\
  fst (onTraceData sampleSpanToEnvelope sampleExporter mixedBatch world0) =
    (pdata.SpanCount mixedBatch - Z.of_nat 1,
     Some (Permanent (errorsNew "invalid duration"))) /\
  List.length
    (sendCalls
       (emitted (onTraceData sampleSpanToEnvelope sampleExporter mixedBatch)
          world0)) = 1%nat /\
  map (fun c => (fst c, inl (snd c)))
      (sendCalls
         (emitted (onTraceData sampleSpanToEnvelope sampleExporter mixedBatch)
            world0)) =
  map (fun t' =>
         (transportChannel sampleExporter,
          stamped sampleSpanToEnvelope sampleExporter t'))
      (firstn 1 (triples mixedBatch)).
Proof.
  split; [split; reflexivity|].
  apply (first_failure_at_k sampleSpanToEnvelope sampleExporter mixedBatch
           world0 1 ("svc-b", "lib2", badSpan "SELECT 1")
           (errorsNew "invalid duration")).
  - reflexivity.
  - reflexivity.
  - intros i t' Hi Hn. destruct i as [|i]; [|lia].
    injection Hn as <-. eexists; reflexivity.
Defined.

(** The batch of two good spans. *)
Lemma all_spans_enqueued_goodBatch :
  (forall t, In t (triples goodBatch) ->
     exists envelope,
       build sampleSpanToEnvelope sampleExporter t = inl envelope) /\
  fst (onTraceData sampleSpanToEnvelope sampleExporter goodBatch world0) =
    (0, None) /\
  Z.of_nat
    (List.length
       (sendCalls
          (emitted (onTraceData sampleSpanToEnvelope sampleExporter goodBatch)
             world0))) = pdata.SpanCount goodBatch /\
  map (fun c => (fst c, inl (snd c)))
      (sendCalls
         (emitted (onTraceData sampleSpanToEnvelope sampleExporter goodBatch)
            world0)) =
  map (fun t =>
         (transportChannel sampleExporter,
          stamped sampleSpanToEnvelope sampleExporter t))
      (triples goodBatch).
Proof.
  assert (Hok : forall t, In t (triples goodBatch) ->
            exists envelope,
              build sampleSpanToEnvelope sampleExporter t = inl envelope).
  { intros t Hin. simpl in Hin.
    destruct Hin as [<-|[<-|[]]]; eexists; reflexivity. }
  split; [exact Hok|].
  apply (all_spans_enqueued sampleSpanToEnvelope sampleExporter goodBatch
           world0 Hok).
Defined.

(** The first envelope sent for the good batch carries the sample key. *)
Lemma sent_key_is_configured_goodBatch :
  In (EvSend 0%nat
        {| contracts.Name := "GET /users"; contracts.Time := "";
           contracts.IKey := "ikey-1234";
           contracts.Tags := [("ai.cloud.role", "svc-a")];
           contracts.Data := 250 |})
     (emitted (onTraceData sampleSpanToEnvelope sampleExporter goodBatch)
        world0) /\
  contracts.IKey (D := Z)
    {| contracts.Name := "GET /users"; contracts.Time := "";
       contracts.IKey := "ikey-1234";
       contracts.Tags := [("ai.cloud.role", "svc-a")];
       contracts.Data := 250 |} =
  InstrumentationKey (config sampleExporter) /\
  (InstrumentationKey (config sampleExporter) <> "" ->
   contracts.IKey (D := Z)
     {| contracts.Name := "GET /users"; contracts.Time := "";
        contracts.IKey := "ikey-1234";
        contracts.Tags := [("ai.cloud.role", "svc-a")];
        contracts.Data := 250 |} <> "").
Proof.
  assert (Hin :
    In (EvSend 0%nat
          {| contracts.Name := "GET /users"; contracts.Time := "";
             contracts.IKey := "ikey-1234";
             contracts.Tags := [("ai.cloud.role", "svc-a")];
             contracts.Data := 250 |})
       (emitted (onTraceData sampleSpanToEnvelope sampleExporter goodBatch)
          world0)).
  { vm_compute. right; left; reflexivity. }
  split; [exact Hin|].
  apply (sent_key_is_configured sampleSpanToEnvelope sampleExporter goodBatch
           world0 0%nat _ Hin).
Defined.

(** The exporter made from the default configuration sends envelopes
    whose instrumentation key is empty. *)
Lemma empty_key_is_sent :
  fst (createTraceExporter NewFactory {| Logger := sampleLogger |}
         createDefaultConfig world0) =
    ({| tChannel := Some 0%nat |}, (Some defaultExporter, None)) /\
  ~ keyStampedNonEmpty sampleSpanToEnvelope defaultExporter goodBatch
      (snd (createTraceExporter NewFactory {| Logger := sampleLogger |}
              createDefaultConfig world0)).
Proof.
  split; [reflexivity|].
  intros H.
  destruct (H 0%nat
              {| contracts.Name := "GET /users"; contracts.Time := "";
                 contracts.IKey := "";
                 contracts.Tags := [("ai.cloud.role", "svc-a")];
                 contracts.Data := 250 |}) as [Hne _].
  - vm_compute. right; left; reflexivity.
  - apply Hne. reflexivity.
Qed.

(** The batch with groups but no span. *)
Lemma empty_batch_emptyBatch :
  pdata.SpanCount emptyBatch = 0 /\
  onTraceData sampleSpanToEnvelope sampleExporter emptyBatch world0 =
    ((0, None),
     extend world0
       [EvLog (logger sampleExporter) zap.DebugLevel "Exporting spans"
          [zap.Int "Count" 0]]) /\
  sendCalls
    (emitted (onTraceData sampleSpanToEnvelope sampleExporter emptyBatch)
       world0) = [].
Proof.
  split; [reflexivity|].
  apply (empty_batch sampleSpanToEnvelope sampleExporter emptyBatch world0).
  reflexivity.
Defined.

(** Scenario S4, run: one send, two spans dropped, a permanent error. *)
Example mixedBatch_run :
  fst (onTraceData sampleSpanToEnvelope sampleExporter mixedBatch world0) =
    (2, Some (Permanent (errorsNew "invalid duration"))) /\
  sendCalls
    (emitted (onTraceData sampleSpanToEnvelope sampleExporter mixedBatch)
       world0) =
    [(0%nat,
      {| contracts.Name := "GET /users"; contracts.Time := "";
         contracts.IKey := "ikey-1234";
         contracts.Tags := [("ai.cloud.role", "svc-a")];
         contracts.Data := 250 |})].
Proof. split; reflexivity. Qed.

(** Two exporters from one factory: one channel, built from the first
    configuration; the second exporter still stamps its own key. *)
Example two_exporters_run :
  fst (createTraceExporters NewFactory
         [({| Logger := debugLogger |}, OfConfig sampleConfig);
          ({| Logger := sampleLogger |}, OfConfig otherConfig)] world0) =
    ({| tChannel := Some 0%nat |},
     [(Some {| config := sampleConfig; transportChannel := 0%nat;
               logger := debugLogger;
               shutdownTimeout := 5 * Second |}, None);
      (Some {| config := otherConfig; transportChannel := 0%nat;
               logger := sampleLogger;
               shutdownTimeout := 1 * Second |}, None)]) /\
  trace (snd (createTraceExporters NewFactory
                [({| Logger := debugLogger |}, OfConfig sampleConfig);
                 ({| Logger := sampleLogger |}, OfConfig otherConfig)] world0)) =
    [EvNewTelemetryClient 0%nat (channelSettings sampleConfig);
     EvNewDiagnosticsMessageListener (appinsights.ForwardToDebug debugLogger)].
Proof. split; reflexivity. Qed.

(** A configuration of another exporter is turned down. *)
Example foreign_configuration_run :
  createTraceExporter NewFactory {| Logger := sampleLogger |}
    (OfOtherType {| configmodels.TypeVal := "logging";
                    configmodels.NameVal := "logging" |}) world0 =
  ((NewFactory, (None, Some errUnexpectedConfigurationType)), world0).
Proof. reflexivity. Qed.

(** [Shutdown] on a transport that drains, and on one that never does. *)
Example Shutdown_run :
  option_map (fun r => (fst r, trace (snd r)))
    (Shutdown sampleExporter world0) =
  Some (None,
        [EvLog sampleLogger zap.InfoLevel "Shutting down trace exporter"
           [zap.Stringer "Shutdown Timeout" (5 * Second)];
         EvClose 0%nat (5 * Second);
         EvReceive 0%nat]) /\
  Shutdown sampleExporter stuckWorld = None.
Proof. split; reflexivity. Qed.

(** * Further properties of the exporter *)

(** ** More on traces *)

Section TraceMore.
Context {D : Type}.

Lemma closeCalls_app (evs evs' : list (Event D)) :
  closeCalls (evs ++ evs') = closeCalls evs ++ closeCalls evs'.
Proof.
  induction evs as [|e evs IH]; simpl; auto.
  destruct e; simpl; now rewrite ?IH.
Qed.

End TraceMore.

(** ** More on enqueued envelopes *)

Section EnqueuedMore.
Context {Resource InstrumentationLibrary Span D : Type}.
Variable spanToEnvelope :
  Resource -> InstrumentationLibrary -> Span -> zap.Logger ->
  contracts.Envelope D + error.

Abbreviation triple := (@Triple Resource InstrumentationLibrary Span).
Abbreviation Batch := (pdata.Traces Resource InstrumentationLibrary Span).
Implicit Types (ts : list triple) (exp : traceExporter) (td : Batch).

Lemma firstError_none_length exp ts :
  firstError spanToEnvelope exp ts = None ->
  List.length (enqueued spanToEnvelope exp ts) = List.length ts.
Proof.
  induction ts as [|t ts IH]; simpl; [auto|].
  destruct (stamped spanToEnvelope exp t); [|discriminate].
  intros H. simpl. now rewrite IH.
Qed.

Lemma firstError_some exp ts e :
  firstError spanToEnvelope exp ts = Some e ->
  (List.length (enqueued spanToEnvelope exp ts) < List.length ts)%nat /\
  exists t, In t ts /\ build spanToEnvelope exp t = inr e.
Proof.
  induction ts as [|t ts IH]; simpl; [discriminate|].
  unfold stamped at 1 2.
  destruct (build spanToEnvelope exp t) as [envelope|e'] eqn:E.
  - intros H. destruct (IH H) as [Hlt [t' [Hin Ht']]]. simpl.
    split; [lia | exists t'; auto].
  - intros H. injection H as ->. simpl. split; [lia | exists t; auto].
Qed.

Lemma enqueued_app exp ts ts' :
  enqueued spanToEnvelope exp (ts ++ ts') =
  enqueued spanToEnvelope exp ts ++
  match firstError spanToEnvelope exp ts with
  | None => enqueued spanToEnvelope exp ts'
  | Some _ => []
  end.
Proof.
  induction ts as [|t ts IH]; simpl; [reflexivity|].
  destruct (stamped spanToEnvelope exp t); simpl; [now rewrite IH | reflexivity].
Qed.

Lemma firstError_app exp ts ts' :
  firstError spanToEnvelope exp (ts ++ ts') =
  match firstError spanToEnvelope exp ts with
  | None => firstError spanToEnvelope exp ts'
  | Some e => Some e
  end.
Proof.
  induction ts as [|t ts IH]; simpl; [reflexivity|].
  destruct (stamped spanToEnvelope exp t); auto.
Qed.

Lemma triples_app td td' :
  triples (td ++ td') = triples td ++ triples td'.
Proof. unfold triples. apply flat_map_app. Qed.

Lemma SpanCount_app td td' :
  pdata.SpanCount (td ++ td') = pdata.SpanCount td + pdata.SpanCount td'.
Proof.
  rewrite !SpanCount_length, triples_app, length_app. lia.
Qed.

Lemma exportEvent_Send exp (envs : list (contracts.Envelope D)) :
  Forall (exportEvent exp) (map (EvSend (transportChannel exp)) envs).
Proof. induction envs; simpl; constructor; simpl; auto. Qed.

End EnqueuedMore.

(** ** One call of [visit] *)

Section VisitProperties.
Context {Resource InstrumentationLibrary Span D : Type}.
Variable spanToEnvelope :
  Resource -> InstrumentationLibrary -> Span -> zap.Logger ->
  contracts.Envelope D + error.
Implicit Types (v : traceVisitor) (w : World D).

(** X1.  [visit] counts exactly what it sends: [processed] grows by the
    number of [Send] calls the call makes, and the exporter of the
    visitor is kept.  An accepted span gives one [Send], a [true] answer
    and leaves a recorded error as it was; a rejected span gives a
    [false] answer, no call at all on any collaborator, and the
    builder's error, wrapped once by [Permanent], as the recorded
    error. *)
Theorem visit_counts_what_it_sends v resource il span w ok v' w' :
  visit spanToEnvelope v resource il span w = ((ok, v'), w') ->
  processed v' =
    processed v +
    Z.of_nat (List.length
      (sendCalls (emitted (visit spanToEnvelope v resource il span) w))) /\
  exporter v' = exporter v /\
  if ok
  then List.length
         (sendCalls (emitted (visit spanToEnvelope v resource il span) w))
       = 1%nat /\ err v' = err v
  else w' = w /\
       exists e,
         spanToEnvelope resource il span (logger (exporter v)) = inr e /\
         err v' = Some (Permanent e).
Proof.
  pose proof (visit_run spanToEnvelope v (resource, il, span) w) as H.
  simpl in H. unfold stamped, build in H. simpl in H.
  intros Hrun.
  destruct (spanToEnvelope resource il span (logger (exporter v)))
    as [envelope|e] eqn:E.
  - rewrite (emitted_extend _ w _ (f_equal snd H)).
    rewrite H in Hrun. inversion Hrun; subst; simpl. auto.
  - rewrite (emitted_unchanged _ w (f_equal snd H)).
    rewrite H in Hrun. inversion Hrun; subst; simpl.
    repeat split; [lia | eauto].
Qed.

(** X2.  An envelope sent by [visit] is the builder's envelope for that
    span with the instrumentation key replaced: name, time, tags and
    data are the builder's, and the key is the configured one whatever
    the builder had put there. *)
Theorem visit_sends_the_built_envelope v resource il span w ch sent :
  In (EvSend ch sent) (emitted (visit spanToEnvelope v resource il span) w) ->
  exists built,
    spanToEnvelope resource il span (logger (exporter v)) = inl built /\
    contracts.Name sent = contracts.Name built /\
    contracts.Time sent = contracts.Time built /\
    contracts.Tags sent = contracts.Tags built /\
    contracts.Data sent = contracts.Data built /\
    contracts.IKey sent = InstrumentationKey (config (exporter v)).
Proof.
  pose proof (visit_run spanToEnvelope v (resource, il, span) w) as H.
  simpl in H. unfold stamped, build in H. simpl in H.
  destruct (spanToEnvelope resource il span (logger (exporter v)))
    as [envelope|e] eqn:E.
  - rewrite (emitted_extend _ w _ (f_equal snd H)).
    intros [Heq|[]]. inversion Heq; subst.
    exists envelope. repeat split; reflexivity.
  - rewrite (emitted_unchanged _ w (f_equal snd H)). intros [].
Qed.

End VisitProperties.

(** ** One export, and exports in a row *)

Section ExportProperties.
Context {Resource InstrumentationLibrary Span D : Type}.
Variable spanToEnvelope :
  Resource -> InstrumentationLibrary -> Span -> zap.Logger ->
  contracts.Envelope D + error.

Abbreviation Batch := (pdata.Traces Resource InstrumentationLibrary Span).
Implicit Types (w : World D) (exp : traceExporter) (td : Batch).

Lemma exportCalls_exportEvent exp td :
  Forall (exportEvent exp) (exportCalls spanToEnvelope exp td).
Proof.
  unfold exportCalls. constructor; [simpl; auto|].
  destruct (pdata.SpanCount td =? 0); [constructor|].
  apply Forall_app. split; [apply exportEvent_Send|].
  constructor; [simpl; auto | constructor].
Qed.

Lemma exportEvent_no_construction_no_close exp (evs : list (Event D)) :
  Forall (exportEvent exp) evs ->
  constructions evs = [] /\ closeCalls evs = [].
Proof.
  induction 1 as [|ev evs Hev _ IH]; [auto|].
  destruct ev; simpl in *; tauto.
Qed.

Lemma onTraceData_only_events exp td w :
  constructions (emitted (onTraceData spanToEnvelope exp td) w) = [] /\
  closeCalls (emitted (onTraceData spanToEnvelope exp td) w) = [].
Proof.
  rewrite onTraceData_emitted.
  apply (exportEvent_no_construction_no_close exp), exportCalls_exportEvent.
Qed.

(** X3.  [onTraceData] makes two kinds of call only: debug logs on the
    exporter's logger and [Send]s on the exporter's channel.  It builds
    no channel, attaches no listener, closes nothing and waits for
    nothing, and the channel counter is left as it was. *)
Theorem onTraceData_only_logs_and_sends exp td w :
  Forall (exportEvent exp) (emitted (onTraceData spanToEnvelope exp td) w) /\
  constructions (emitted (onTraceData spanToEnvelope exp td) w) = [] /\
  closeCalls (emitted (onTraceData spanToEnvelope exp td) w) = [] /\
  nextChannel (snd (onTraceData spanToEnvelope exp td w)) = nextChannel w.
Proof.
  split.
  { rewrite onTraceData_emitted. apply exportCalls_exportEvent. }
  destruct (onTraceData_only_events exp td w) as [Hc Hcl].
  repeat split; [exact Hc | exact Hcl |].
  now rewrite onTraceData_run.
Qed.

(** X4.  Every span of a batch is either sent or counted as dropped: the
    number of [Send] calls of an export and the dropped count it returns
    add up to the span count. *)
Theorem sent_plus_dropped_is_span_count exp td w :
  Z.of_nat
    (List.length
       (sendCalls (emitted (onTraceData spanToEnvelope exp td) w))) +
  fst (fst (onTraceData spanToEnvelope exp td w)) = pdata.SpanCount td.
Proof.
  rewrite onTraceData_sends, onTraceData_result, length_map. simpl. lia.
Qed.

(** X5.  [onTraceData] returns a nil error exactly when it drops no
    span.  An error it returns is never the builder's bare error: it is
    [Permanent] of the error the builder gave for some span of the
    batch. *)
Theorem error_iff_dropped exp td w :
  (snd (fst (onTraceData spanToEnvelope exp td w)) = None <->
   fst (fst (onTraceData spanToEnvelope exp td w)) = 0) /\
  match snd (fst (onTraceData spanToEnvelope exp td w)) with
  | None => True
  | Some e =>
      exists t e0,
        In t (triples td) /\
        build spanToEnvelope exp t = inr e0 /\
        e = Permanent e0
  end.
Proof.
  rewrite onTraceData_result, SpanCount_length. simpl.
  destruct (firstError spanToEnvelope exp (triples td)) as [e0|] eqn:E; simpl.
  - destruct (firstError_some _ _ _ _ E) as [Hlt [t [Hin Ht]]].
    split; [split; [discriminate | lia] | exists t, e0; auto].
  - rewrite (firstError_none_length _ _ _ E).
    split; [split; [lia | reflexivity] | exact I].
Qed.

(** X6.  The shape of an export of a batch that has spans: the debug log
    "Exporting spans" with the span count, then the [Send] calls, then
    the debug log "Exported spans" whose dropped count and error are the
    ones returned. *)
Theorem export_is_logged_as_returned exp td w :
  pdata.SpanCount td <> 0 ->
  emitted (onTraceData spanToEnvelope exp td) w =
  EvLog (logger exp) zap.DebugLevel "Exporting spans"
    [zap.Int "Count" (pdata.SpanCount td)] ::
  map (fun c => EvSend (fst c) (snd c))
    (sendCalls (emitted (onTraceData spanToEnvelope exp td) w)) ++
  [EvLog (logger exp) zap.DebugLevel "Exported spans"
     [zap.Int "Dropped" (fst (fst (onTraceData spanToEnvelope exp td w)));
      zap.Error (snd (fst (onTraceData spanToEnvelope exp td w)))]].
Proof.
  intros Hn. rewrite onTraceData_sends, onTraceData_emitted.
  rewrite onTraceData_run. unfold exportCalls. simpl.
  destruct (pdata.SpanCount td =? 0) eqn:E; [apply Z.eqb_eq in E; tauto|].
  now rewrite map_map.
Qed.

(** X7.  The exporter keeps no record of having been shut down.  After a
    [Shutdown] that returned, the channel has been closed, yet
    [onTraceData] returns the same result and makes the same calls,
    [Send]s included, as it would have before. *)
Theorem export_after_shutdown exp td w e w' :
  Shutdown exp w = Some (e, w') ->
  In (transportChannel exp, shutdownTimeout exp) (closeCalls (trace w')) /\
  fst (onTraceData spanToEnvelope exp td w') =
    fst (onTraceData spanToEnvelope exp td w) /\
  emitted (onTraceData spanToEnvelope exp td) w' =
    emitted (onTraceData spanToEnvelope exp td) w.
Proof.
  intros Hs. split.
  - unfold Shutdown, Info, Close, Receive, emit in Hs; simpl in Hs.
    destruct (drains w (transportChannel exp) (shutdownTimeout exp));
      [|discriminate].
    inversion Hs; subst; simpl.
    rewrite !closeCalls_app. simpl.
    apply in_or_app; left. apply in_or_app; right. now left.
  - rewrite !onTraceData_emitted, !onTraceData_run. auto.
Qed.

(** X8.  Two exports in a row through one exporter are two separate
    exports: each returns what it returns on its own (an error of the
    first is not carried into the second), and the calls are those of
    the first followed by those of the second. *)
Theorem exports_in_a_row exp td1 td2 w :
  fst (consumeTwice spanToEnvelope exp td1 td2 w) =
    (fst (onTraceData spanToEnvelope exp td1 w),
     fst (onTraceData spanToEnvelope exp td2 w)) /\
  emitted (consumeTwice spanToEnvelope exp td1 td2) w =
    emitted (onTraceData spanToEnvelope exp td1) w ++
    emitted (onTraceData spanToEnvelope exp td2) w.
Proof.
  rewrite !onTraceData_emitted.
  assert (H : consumeTwice spanToEnvelope exp td1 td2 w =
              ((exportResult spanToEnvelope exp td1,
                exportResult spanToEnvelope exp td2),
               extend w (exportCalls spanToEnvelope exp td1 ++
                         exportCalls spanToEnvelope exp td2))).
  { unfold consumeTwice, bind. rewrite !onTraceData_run.
    unfold ret. now rewrite extend_extend. }
  split.
  - now rewrite H, !onTraceData_run.
  - apply emitted_extend. now rewrite H.
Qed.

(** X9.  Exporting two batches as one.  If the builder accepts every
    span of the first, the joint export sends the envelopes of the first
    and then does what the export of the second does.  If it rejects a
    span of the first, the joint export sends what the export of the
    first sends and nothing of the second: all spans of the second are
    counted as dropped on top of those of the first. *)
Theorem export_of_joined_batches exp td1 td2 w :
  fst (onTraceData spanToEnvelope exp (td1 ++ td2) w) =
    match snd (fst (onTraceData spanToEnvelope exp td1 w)) with
    | None => fst (onTraceData spanToEnvelope exp td2 w)
    | Some e =>
        (fst (fst (onTraceData spanToEnvelope exp td1 w)) +
           pdata.SpanCount td2,
         Some e)
    end /\
  sendCalls (emitted (onTraceData spanToEnvelope exp (td1 ++ td2)) w) =
    sendCalls (emitted (onTraceData spanToEnvelope exp td1) w) ++
    match snd (fst (onTraceData spanToEnvelope exp td1 w)) with
    | None => sendCalls (emitted (onTraceData spanToEnvelope exp td2) w)
    | Some _ => []
    end.
Proof.
  rewrite !onTraceData_sends, !onTraceData_result. simpl.
  rewrite triples_app, enqueued_app, firstError_app, SpanCount_app.
  destruct (firstError spanToEnvelope exp (triples td1)) as [e|] eqn:E; simpl.
  - rewrite !app_nil_r. split; [f_equal; lia | reflexivity].
  - rewrite length_app, (firstError_none_length _ _ _ E), map_app.
    rewrite (SpanCount_length td1).
    split; [f_equal; lia | reflexivity].
Qed.

End ExportProperties.

(** ** Exporters of one factory, and their shutdown *)

Section FactoryProperties.
Context {D : Type}.
Implicit Types (w : World D) (c : Config) (exp : traceExporter).

Lemma Shutdown_run_closed_form exp w :
  Shutdown exp w =
  if drains w (transportChannel exp) (shutdownTimeout exp)
  then Some (None, extend w (shutdownCalls exp))
  else None.
Proof.
  unfold Shutdown, shutdownCalls, Info, Close, Receive, emit, extend; simpl.
  destruct (drains w (transportChannel exp) (shutdownTimeout exp));
    [|reflexivity].
  now rewrite <- !app_assoc.
Qed.

(** What a series of calls says about each exporter it produced. *)
Lemma exportersOf_createdWith_fields ch calls exp :
  In exp (exportersOf (map (createdWith ch) calls)) ->
  transportChannel exp = ch /\
  shutdownTimeout exp = ShutdownTimeout (config exp) /\
  exists params,
    In (params, OfConfig (config exp)) calls /\ logger exp = Logger params.
Proof.
  induction calls as [|[params cfg] calls IH]; simpl; [tauto|].
  unfold createdWith at 1; simpl.
  destruct cfg as [c|s]; simpl.
  - intros [<-|H]; simpl.
    + repeat split. exists params. auto.
    + destruct (IH H) as [H1 [H2 [p [H3 H4]]]].
      repeat split; auto. exists p. auto.
  - intros H. destruct (IH H) as [H1 [H2 [p [H3 H4]]]].
    repeat split; auto. exists p. auto.
Qed.

Lemma createTraceExporters_results calls w :
  snd (fst (createTraceExporters NewFactory calls w)) =
  map (createdWith (nextChannel w)) calls.
Proof.
  unfold NewFactory. rewrite createTraceExporters_fresh.
  now destruct (firstConfig calls) as [[lg c]|].
Qed.

(** X10.  [Shutdown] keeps no record of having run.  On a transport that
    delivers the signal, a second [Shutdown] of the same exporter logs,
    closes the channel and waits once more, with the same time-out. *)
Theorem shutdown_twice_closes_twice exp w :
  drains w (transportChannel exp) (shutdownTimeout exp) = true ->
  Shutdown exp w = Some (None, extend w (shutdownCalls exp)) /\
  Shutdown exp (extend w (shutdownCalls exp)) =
    Some (None, extend w (shutdownCalls exp ++ shutdownCalls exp)) /\
  closeCalls (@shutdownCalls D exp ++ shutdownCalls exp) =
    [(transportChannel exp, shutdownTimeout exp);
     (transportChannel exp, shutdownTimeout exp)].
Proof.
  intros Hd. rewrite !Shutdown_run_closed_form. simpl. rewrite Hd.
  repeat split. now rewrite extend_extend.
Qed.

(** X11.  Exporters of one factory share their channel, so shutting one
    of them down closes the channel of all the others; the time-out used
    is the one of the configuration of the exporter being shut down. *)
Theorem shutdown_closes_the_shared_channel calls w e1 e2 w' :
  In e1 (exportersOf (snd (fst (createTraceExporters NewFactory calls w)))) ->
  In e2 (exportersOf (snd (fst (createTraceExporters NewFactory calls w)))) ->
  transportChannel e1 = transportChannel e2 /\
  Shutdown e1 w' =
    if drains w' (transportChannel e2) (ShutdownTimeout (config e1))
    then Some (None,
               extend w'
                 [EvLog (logger e1) zap.InfoLevel
                    "Shutting down trace exporter"
                    [zap.Stringer "Shutdown Timeout"
                       (ShutdownTimeout (config e1))];
                  EvClose (transportChannel e2) (ShutdownTimeout (config e1));
                  EvReceive (transportChannel e2)])
    else None.
Proof.
  rewrite createTraceExporters_results. intros H1 H2.
  destruct (exportersOf_createdWith_fields _ _ _ H1) as [Hc1 [Ht1 _]].
  destruct (exportersOf_createdWith_fields _ _ _ H2) as [Hc2 _].
  split; [congruence|].
  rewrite Shutdown_run_closed_form. unfold shutdownCalls.
  rewrite Ht1, Hc2, Hc1. reflexivity.
Qed.

(** X12.  A series of calls on a new factory gives one result per call,
    in call order.  The result of a call depends on that call alone: the
    configuration error for a foreign configuration, otherwise an
    exporter with the configuration, logger and shutdown time-out of
    that call, on the factory's one channel. *)
Theorem one_result_per_call calls w i params cfg :
  nth_error calls i = Some (params, cfg) ->
  List.length (snd (fst (createTraceExporters NewFactory calls w))) =
    List.length calls /\
  nth_error (snd (fst (createTraceExporters NewFactory calls w))) i =
    Some match asConfig cfg with
         | Some c =>
             (Some {| config := c;
                      transportChannel := nextChannel w;
                      logger := Logger params;
                      shutdownTimeout := ShutdownTimeout c |},
              None)
         | None => (None, Some errUnexpectedConfigurationType)
         end.
Proof.
  intros Hi. rewrite createTraceExporters_results, length_map.
  split; [reflexivity|].
  rewrite nth_error_map, Hi. simpl. unfold createdWith. simpl.
  now destruct (asConfig cfg).
Qed.

(** X13.  The factory accepts its own default configuration: whatever the
    factory holds, [createTraceExporter] on [createDefaultConfig] returns
    an exporter and no error, with a shutdown time-out of five seconds.
    A channel built from the default configuration has the settings the
    client library itself defaults to, with an empty key. *)
Theorem default_configuration_is_accepted (f : factory) params w :
  snd (fst (createTraceExporter f params createDefaultConfig w)) =
    (Some {| config := defaultConfig;
             transportChannel :=
               snd (fst (getTransportChannel f defaultConfig
                           (Logger params) w));
             logger := Logger params;
             shutdownTimeout := 5 * Second |},
     None) /\
  constructions
    (emitted (createTraceExporter NewFactory params createDefaultConfig) w) =
    [(nextChannel w, appinsights.NewTelemetryConfiguration "")].
Proof.
  split.
  - unfold createTraceExporter, createDefaultConfig, bind. simpl.
    now destruct (getTransportChannel f defaultConfig (Logger params) w)
      as [[f' ch] w1].
  - unfold NewFactory, createDefaultConfig.
    rewrite (emitted_afterConstruction _ w defaultConfig (Logger params))
      by now rewrite createTraceExporter_fresh.
    apply constructions_constructionCalls.
Qed.

(** X14.  The channel is shared per factory, not globally: two new
    factories asked for one exporter each build two channels, each from
    its own configuration, and the two exporters are bound to different
    channels. *)
Theorem two_factories_two_channels params1 c1 params2 c2 w :
  fst (createOnTwoFactories params1 c1 params2 c2 w) =
    ((Some {| config := c1;
              transportChannel := nextChannel w;
              logger := Logger params1;
              shutdownTimeout := ShutdownTimeout c1 |}, None),
     (Some {| config := c2;
              transportChannel := S (nextChannel w);
              logger := Logger params2;
              shutdownTimeout := ShutdownTimeout c2 |}, None)) /\
  constructions (emitted (createOnTwoFactories params1 c1 params2 c2) w) =
    [(nextChannel w, channelSettings c1);
     (S (nextChannel w), channelSettings c2)].
Proof.
  assert (H : createOnTwoFactories params1 c1 params2 c2 w =
              ((createdWith (nextChannel w) (params1, OfConfig c1),
                createdWith (S (nextChannel w)) (params2, OfConfig c2)),
               afterConstruction (afterConstruction w c1 (Logger params1))
                 c2 (Logger params2))).
  { unfold createOnTwoFactories, NewFactory, bind.
    rewrite createTraceExporter_fresh. simpl.
    rewrite createTraceExporter_fresh. reflexivity. }
  split; [now rewrite H|].
  unfold emitted. rewrite H. simpl.
  rewrite <- app_assoc, skipn_prefix, constructions_app.
  now rewrite !constructions_constructionCalls.
Qed.

End FactoryProperties.

(** ** Create, export, shut down *)

Section LifecycleProperties.
Context {Resource InstrumentationLibrary Span D : Type}.
Variable spanToEnvelope :
  Resource -> InstrumentationLibrary -> Span -> zap.Logger ->
  contracts.Envelope D + error.

Abbreviation Batch := (pdata.Traces Resource InstrumentationLibrary Span).
Implicit Types (w : World D) (exp : traceExporter) (td : Batch).

(** X15.  The life of an exporter on a transport that delivers the
    signal.  Created on a new factory, it exports a batch and shuts down:
    the result of the export is that of [onTraceData], the shutdown
    returns nil, and the calls are those of the channel's construction,
    then those of the export, then those of the shutdown.  So the
    channel built is the one the envelopes go to and the one closed, and
    it is closed after the last [Send]. *)
Theorem life_of_an_exporter params c td w exp :
  fst (newTraceExporter c (nextChannel w) (Logger params)) = Some exp ->
  drains w (nextChannel w) (ShutdownTimeout c) = true ->
  createConsumeShutdown spanToEnvelope params c td w =
    Some (fst (onTraceData spanToEnvelope exp td w), None,
          {| trace :=
               trace w ++
               constructionCalls (nextChannel w) c (Logger params) ++
               emitted (onTraceData spanToEnvelope exp td) w ++
               shutdownCalls exp;
             nextChannel := S (nextChannel w);
             drains := drains w |}) /\
  closeCalls
    (constructionCalls (nextChannel w) c (Logger params) ++
     emitted (onTraceData spanToEnvelope exp td) w ++
     shutdownCalls exp) = [(nextChannel w, ShutdownTimeout c)].
Proof.
  intros Hexp Hd. simpl in Hexp. injection Hexp as <-.
  split.
  - unfold createConsumeShutdown, NewFactory.
    rewrite createTraceExporter_fresh. simpl.
    rewrite onTraceData_emitted, !onTraceData_run.
    rewrite Shutdown_run_closed_form. simpl. rewrite Hd.
    unfold extend, afterConstruction. simpl.
    now rewrite <- !app_assoc.
  - rewrite !closeCalls_app.
    destruct (onTraceData_only_events spanToEnvelope
                {| config := c; transportChannel := nextChannel w;
                   logger := Logger params;
                   shutdownTimeout := ShutdownTimeout c |} td w) as [_ Hc].
    rewrite Hc. unfold constructionCalls. simpl.
    induction (attachedWith (Logger params)); simpl; auto.
Qed.

(** X16.  An exporter made by a later call on a factory is bound to the
    channel built from the configuration of the first call, and still
    stamps the key of its own configuration: its envelopes carry its own
    key and go to the channel that was set up with the first call's key
    and endpoint. *)
Theorem later_exporter_stamps_its_own_key params0 c0 rest w exp td w' :
  In exp
    (exportersOf
       (snd (fst (createTraceExporters NewFactory
                    ((params0, OfConfig c0) :: rest) w)))) ->
  constructions
    (emitted (createTraceExporters NewFactory ((params0, OfConfig c0) :: rest))
       w) = [(nextChannel w, channelSettings c0)] /\
  In (OfConfig (config exp)) (map snd ((params0, OfConfig c0) :: rest)) /\
  Forall (fun s =>
            fst s = nextChannel w /\
            contracts.IKey (snd s) = InstrumentationKey (config exp))
    (sendCalls (emitted (onTraceData spanToEnvelope exp td) w')).
Proof.
  rewrite createTraceExporters_results. intros Hin.
  destruct (exportersOf_createdWith_fields _ _ _ Hin)
    as [Hch [_ [p [Hp _]]]].
  split.
  { unfold NewFactory.
    rewrite (emitted_afterConstruction _ w c0 (Logger params0))
      by now rewrite createTraceExporters_fresh.
    apply constructions_constructionCalls. }
  split.
  { apply in_map_iff. exists (p, OfConfig (config exp)). auto. }
  rewrite onTraceData_sends. apply Forall_forall.
  intros s Hs. apply in_map_iff in Hs. destruct Hs as [envelope [<- He]].
  simpl. split; [exact Hch | eapply enqueued_key; eassumption].
Qed.

End LifecycleProperties.

(** ** Runs of the further properties on the sample instance *)

Lemma visit_counts_what_it_sends_okSpan :
  visit sampleSpanToEnvelope sampleVisitor "svc-a" "lib" (okSpan "GET /users")
    world0 =
  ((true, {| processed := 1; err := None; exporter := sampleExporter |}),
   extend world0
     [EvSend 0%nat
        {| contracts.Name := "GET /users"; contracts.Time := "";
           contracts.IKey := "ikey-1234";
           contracts.Tags := [("ai.cloud.role", "svc-a")];
           contracts.Data := 250 |}]) /\
  (1 = processed sampleVisitor +
       Z.of_nat (List.length
         (sendCalls
            (emitted (visit sampleSpanToEnvelope sampleVisitor "svc-a" "lib"
                        (okSpan "GET /users")) world0))) /\
   sampleExporter = exporter sampleVisitor /\
   List.length
     (sendCalls
        (emitted (visit sampleSpanToEnvelope sampleVisitor "svc-a" "lib"
                    (okSpan "GET /users")) world0)) = 1%nat /\
   None = err sampleVisitor).
Proof.
  split; [reflexivity|].
  apply (visit_counts_what_it_sends sampleSpanToEnvelope sampleVisitor
           "svc-a" "lib" (okSpan "GET /users") world0 true
           {| processed := 1; err := None; exporter := sampleExporter |}
           (extend world0
              [EvSend 0%nat
                 {| contracts.Name := "GET /users"; contracts.Time := "";
                    contracts.IKey := "ikey-1234";
                    contracts.Tags := [("ai.cloud.role", "svc-a")];
                    contracts.Data := 250 |}])).
  reflexivity.
Defined.

Lemma visit_sends_the_built_envelope_okSpan :
  In (EvSend 0%nat
        {| contracts.Name := "GET /users"; contracts.Time := "";
           contracts.IKey := "ikey-1234";
           contracts.Tags := [("ai.cloud.role", "svc-a")];
           contracts.Data := 250 |})
     (emitted (visit sampleSpanToEnvelope sampleVisitor "svc-a" "lib"
                 (okSpan "GET /users")) world0) /\
  exists built,
    sampleSpanToEnvelope "svc-a" "lib" (okSpan "GET /users")
      (logger (exporter sampleVisitor)) = inl built /\
    "GET /users" = contracts.Name built /\
    "" = contracts.Time built /\
    [("ai.cloud.role", "svc-a")] = contracts.Tags built /\
    250 = contracts.Data built /\
    "ikey-1234" = InstrumentationKey (config (exporter sampleVisitor)).
Proof.
  assert (Hin :
    In (EvSend 0%nat
          {| contracts.Name := "GET /users"; contracts.Time := "";
             contracts.IKey := "ikey-1234";
             contracts.Tags := [("ai.cloud.role", "svc-a")];
             contracts.Data := 250 |})
       (emitted (visit sampleSpanToEnvelope sampleVisitor "svc-a" "lib"
                   (okSpan "GET /users")) world0)).
  { vm_compute. left; reflexivity. }
  split; [exact Hin|].
  apply (visit_sends_the_built_envelope sampleSpanToEnvelope sampleVisitor
           "svc-a" "lib" (okSpan "GET /users") world0 0%nat _ Hin).
Defined.

Lemma export_is_logged_as_returned_mixedBatch :
  pdata.SpanCount mixedBatch <> 0 /\
  emitted (onTraceData sampleSpanToEnvelope sampleExporter mixedBatch) world0 =
  EvLog (logger sampleExporter) zap.DebugLevel "Exporting spans"
    [zap.Int "Count" (pdata.SpanCount mixedBatch)] ::
  map (fun c => EvSend (fst c) (snd c))
    (sendCalls
       (emitted (onTraceData sampleSpanToEnvelope sampleExporter mixedBatch)
          world0)) ++
  [EvLog (logger sampleExporter) zap.DebugLevel "Exported spans"
     [zap.Int "Dropped"
        (fst (fst (onTraceData sampleSpanToEnvelope sampleExporter mixedBatch
                     world0)));
      zap.Error
        (snd (fst (onTraceData sampleSpanToEnvelope sampleExporter mixedBatch
                     world0)))]].
Proof.
  assert (Hn : pdata.SpanCount mixedBatch <> 0) by (vm_compute; discriminate).
  split; [exact Hn|].
  apply (export_is_logged_as_returned sampleSpanToEnvelope sampleExporter
           mixedBatch world0 Hn).
Defined.

Lemma export_after_shutdown_goodBatch :
  Shutdown sampleExporter world0 =
    Some (None, extend world0 (shutdownCalls sampleExporter)) /\
  In (transportChannel sampleExporter, shutdownTimeout sampleExporter)
     (closeCalls (trace (extend world0 (shutdownCalls sampleExporter)))) /\
  fst (onTraceData sampleSpanToEnvelope sampleExporter goodBatch
         (extend world0 (shutdownCalls sampleExporter))) =
    fst (onTraceData sampleSpanToEnvelope sampleExporter goodBatch world0) /\
  emitted (onTraceData sampleSpanToEnvelope sampleExporter goodBatch)
    (extend world0 (shutdownCalls sampleExporter)) =
    emitted (onTraceData sampleSpanToEnvelope sampleExporter goodBatch) world0.
Proof.
  split; [reflexivity|].
  apply (export_after_shutdown sampleSpanToEnvelope sampleExporter goodBatch
           world0 None (extend world0 (shutdownCalls sampleExporter))).
  reflexivity.
Defined.

Lemma shutdown_twice_closes_twice_sample :
  drains world0 (transportChannel sampleExporter)
    (shutdownTimeout sampleExporter) = true /\
  Shutdown sampleExporter world0 =
    Some (None, extend world0 (shutdownCalls sampleExporter)) /\
  Shutdown sampleExporter (extend world0 (shutdownCalls sampleExporter)) =
    Some (None,
          extend world0
            (shutdownCalls sampleExporter ++ shutdownCalls sampleExporter)) /\
  closeCalls
    (@shutdownCalls Z sampleExporter ++ shutdownCalls sampleExporter) =
    [(transportChannel sampleExporter, shutdownTimeout sampleExporter);
     (transportChannel sampleExporter, shutdownTimeout sampleExporter)].
Proof.
  split; [reflexivity|].
  apply (shutdown_twice_closes_twice sampleExporter world0).
  reflexivity.
Defined.

Lemma shutdown_closes_the_shared_channel_twoCalls :
  (In secondExporter
     (exportersOf (snd (fst (createTraceExporters NewFactory twoCalls world0))))
   /\
   In firstExporter
     (exportersOf (snd (fst (createTraceExporters NewFactory twoCalls world0)))))
  /\
  transportChannel secondExporter = transportChannel firstExporter /\
  Shutdown secondExporter world0 =
    if drains world0 (transportChannel firstExporter)
         (ShutdownTimeout (config secondExporter))
    then Some (None,
               extend world0
                 [EvLog (logger secondExporter) zap.InfoLevel
                    "Shutting down trace exporter"
                    [zap.Stringer "Shutdown Timeout"
                       (ShutdownTimeout (config secondExporter))];
                  EvClose (transportChannel firstExporter)
                    (ShutdownTimeout (config secondExporter));
                  EvReceive (transportChannel firstExporter)])
    else None.
Proof.
  assert (H2 : In secondExporter
                 (exportersOf
                    (snd (fst (createTraceExporters NewFactory twoCalls
                                 world0))))).
  { vm_compute. right; left; reflexivity. }
  assert (H1 : In firstExporter
                 (exportersOf
                    (snd (fst (createTraceExporters NewFactory twoCalls
                                 world0))))).
  { vm_compute. left; reflexivity. }
  split; [split; assumption|].
  apply (shutdown_closes_the_shared_channel twoCalls world0 secondExporter
           firstExporter world0 H2 H1).
Defined.

Lemma one_result_per_call_twoCalls :
  nth_error twoCalls 1 =
    Some ({| Logger := sampleLogger |}, OfConfig otherConfig) /\
  List.length (snd (fst (createTraceExporters NewFactory twoCalls world0))) =
    List.length twoCalls /\
  nth_error (snd (fst (createTraceExporters NewFactory twoCalls world0))) 1 =
    Some (Some {| config := otherConfig;
                  transportChannel := nextChannel world0;
                  logger := sampleLogger;
                  shutdownTimeout := ShutdownTimeout otherConfig |},
          None).
Proof.
  split; [reflexivity|].
  apply (one_result_per_call twoCalls world0 1 {| Logger := sampleLogger |}
           (OfConfig otherConfig)).
  reflexivity.
Defined.

Lemma life_of_an_exporter_mixedBatch :
  (fst (newTraceExporter sampleConfig (nextChannel world0) sampleLogger) =
     Some sampleExporter /\
   drains world0 (nextChannel world0) (ShutdownTimeout sampleConfig) = true) /\
  createConsumeShutdown sampleSpanToEnvelope {| Logger := sampleLogger |}
    sampleConfig mixedBatch world0 =
    Some (fst (onTraceData sampleSpanToEnvelope sampleExporter mixedBatch
                 world0),
          None,
          {| trace :=
               trace world0 ++
               constructionCalls (nextChannel world0) sampleConfig
                 sampleLogger ++
               emitted
                 (onTraceData sampleSpanToEnvelope sampleExporter mixedBatch)
                 world0 ++
               shutdownCalls sampleExporter;
             nextChannel := S (nextChannel world0);
             drains := drains world0 |}) /\
  closeCalls
    (constructionCalls (nextChannel world0) sampleConfig sampleLogger ++
     emitted (onTraceData sampleSpanToEnvelope sampleExporter mixedBatch)
       world0 ++
     shutdownCalls sampleExporter) =
    [(nextChannel world0, ShutdownTimeout sampleConfig)].
Proof.
  split; [split; reflexivity|].
  apply (life_of_an_exporter sampleSpanToEnvelope {| Logger := sampleLogger |}
           sampleConfig mixedBatch world0 sampleExporter);
    reflexivity.
Defined.

Lemma later_exporter_stamps_its_own_key_twoCalls :
  In secondExporter
    (exportersOf (snd (fst (createTraceExporters NewFactory twoCalls world0))))
  /\
  constructions (emitted (createTraceExporters NewFactory twoCalls) world0) =
    [(nextChannel world0, channelSettings sampleConfig)] /\
  In (OfConfig (config secondExporter)) (map snd twoCalls) /\
  Forall (fun s =>
            fst s = nextChannel world0 /\
            contracts.IKey (snd s) =
              InstrumentationKey (config secondExporter))
    (sendCalls
       (emitted (onTraceData sampleSpanToEnvelope secondExporter goodBatch)
          world0)).
Proof.
  assert (H2 : In secondExporter
                 (exportersOf
                    (snd (fst (createTraceExporters NewFactory twoCalls
                                 world0))))).
  { vm_compute. right; left; reflexivity. }
  split; [exact H2|].
  apply (later_exporter_stamps_its_own_key sampleSpanToEnvelope
           {| Logger := debugLogger |} sampleConfig
           [({| Logger := sampleLogger |}, OfConfig otherConfig)]
           world0 secondExporter goodBatch world0 H2).
Defined.

(** The second exporter's envelopes on the first configuration's channel. *)
Example key_mismatch_run :
  constructions (emitted (createTraceExporters NewFactory twoCalls) world0) =
    [(0%nat,
      {| appinsights.InstrumentationKey := "ikey-1234";
         appinsights.EndpointUrl := defaultEndpoint;
         appinsights.MaxBatchSize := 1024;
         appinsights.MaxBatchInterval := 10 * Second |})] /\
  map (fun s => (fst s, contracts.IKey (snd s)))
    (sendCalls
       (emitted (onTraceData sampleSpanToEnvelope secondExporter goodBatch)
          world0)) =
    [(0%nat, "ikey-5678"); (0%nat, "ikey-5678")].
Proof. split; reflexivity. Qed.

(** Joining the mixed batch with the good one: the good one is dropped. *)
Example joined_batches_run :
  fst (onTraceData sampleSpanToEnvelope sampleExporter
         (mixedBatch ++ goodBatch) world0) =
    (4, Some (Permanent (errorsNew "invalid duration"))) /\
  List.length
    (sendCalls
       (emitted (onTraceData sampleSpanToEnvelope sampleExporter
                   (mixedBatch ++ goodBatch)) world0)) = 1%nat.
Proof. split; reflexivity. Qed.
